(** * rfc_stats: vote extraction and identity resolution

    A shallow embedding of [rfc_stats.py].  A string is the sequence of
    its characters.  What the program takes from outside its source file
    (the wiki transport, the line boundaries of [splitlines] on the text
    of a section, the HTML entity decoder, [strptime], the date pattern
    and format of [config.py]) is gathered in a record, [Environment],
    that the operations take as an argument.  The regular expressions
    written in the program are kept as data and run by a small backtracking
    matcher with Python's leftmost, greedy semantics.  A method that
    assigns to the attributes of [self] is a computation on the state of
    the object, and a generator is the list of the events a consumer sees
    when it runs it to its end.  What the script does to the outside (the
    file behind the CSV writer, the encoding of the strings of a row, the
    line it prints after each vote) is a set of operations that may raise.
    The diagnostic [print] before a re-raise in [from_line] and
    [load_data] is left out, the exception that leaves the handler being
    the one that entered it, and so is [get_local_gap], which discards what
    it asks for. *)

From Stdlib Require Import String Ascii List ZArith Bool Lia Arith.
From Stdlib Require Import Sorted Permutation DecimalString.
Import ListNotations.
Local Open Scope string_scope.

Set Implicit Arguments.

(** ** Exceptions and fallible computations *)

Inductive exn : Type :=
| NoSuchUserException (username : string)
| KeyError
| IndexError
| ValueError
| AttributeError
| TypeError
| TransportError.

Inductive result (A : Type) : Type :=
| Ok (a : A)
| Raise (e : exn).
Arguments Ok {A} a.
Arguments Raise {A} e.

Definition rbind {A B} (c : result A) (f : A -> result B) : result B :=
  match c with
  | Ok a => f a
  | Raise e => Raise e
  end.

(** [d[k]] on a response dictionary: the key may be missing. *)
Definition getitem {A} (field : option A) : result A :=
  match field with
  | Some a => Ok a
  | None => Raise KeyError
  end.

(** [l[0]] on a list. *)
Definition index0 {A} (l : list A) : result A :=
  match l with
  | a :: _ => Ok a
  | [] => Raise IndexError
  end.

(** ** Regular expressions *)

Module Re.

(** The constructs used by the patterns of the program. *)
Inductive regex : Type :=
| Eps
| Chr (c : ascii)                      (* a literal character *)
| NotIn (cs : list ascii)              (* [^cs] *)
| Seq (r1 r2 : regex)
| Opt (r : regex)                      (* (?:r)?, greedy *)
| PlusNotIn (cs : list ascii)          (* [^cs]+, greedy *)
| Group (r : regex).                   (* (r), group 1 *)

Fixpoint lit (s : string) : regex :=
  match s with
  | EmptyString => Eps
  | String c s' => Seq (Chr c) (lit s')
  end.

Definition mem (c : ascii) (cs : list ascii) : bool :=
  existsb (Ascii.eqb c) cs.

(** The part of [s] consumed when [rest] is what is left of it. *)
Definition consumed (s rest : string) : string :=
  substring 0 (String.length s - String.length rest) s.

Section Matcher.
Variable A : Type.

(** One or more characters outside [cs]: the longest run is tried first
    and given up one character at a time. *)
Fixpoint plus_not_in (cs : list ascii) (s : string)
         (k : string -> option A) : option A :=
  match s with
  | EmptyString => None
  | String c s' =>
      if mem c cs then None
      else match plus_not_in cs s' k with
           | Some x => Some x
           | None => k s'
           end
  end.

(** [rmatch r s g k]: match [r] at the head of [s], then continue with
    [k] on the rest; [g] is the text of group 1 so far. *)
Fixpoint rmatch (r : regex) (s : string) (g : option string)
         (k : string -> option string -> option A) : option A :=
  match r with
  | Eps => k s g
  | Chr c =>
      match s with
      | String c' s' => if Ascii.eqb c c' then k s' g else None
      | EmptyString => None
      end
  | NotIn cs =>
      match s with
      | String c' s' => if mem c' cs then None else k s' g
      | EmptyString => None
      end
  | Seq r1 r2 => rmatch r1 s g (fun s1 g1 => rmatch r2 s1 g1 k)
  | Opt r1 =>
      match rmatch r1 s g k with
      | Some x => Some x
      | None => k s g
      end
  | PlusNotIn cs => plus_not_in cs s (fun s' => k s' g)
  | Group r1 => rmatch r1 s g (fun s1 _ => k s1 (Some (consumed s s1)))
  end.
End Matcher.

(** A match object: where it starts, [group(0)] and [group(1)]. *)
Record Match : Type := mkMatch {
  start : nat;
  group0 : string;
  group1 : option string
}.

(** [re.match]: at the beginning of the string only. *)
Definition match_at (pos : nat) (r : regex) (s : string) : option Match :=
  rmatch r s None (fun rest g => Some (mkMatch pos (consumed s rest) g)).

Definition match_ (r : regex) (s : string) : option Match :=
  match_at 0 r s.

(** [re.search]: the leftmost position at which the pattern matches. *)
Fixpoint search_from (pos : nat) (r : regex) (s : string) : option Match :=
  match match_at pos r s with
  | Some m => Some m
  | None =>
      match s with
      | EmptyString => None
      | String _ s' => search_from (S pos) r s'
      end
  end.

Definition search (r : regex) (s : string) : option Match :=
  search_from 0 r s.

End Re.

(** ** Vote lines and signatures *)

(** [r'#[^#*:]'] *)
Definition vote_line_regexp : Re.regex :=
  Re.Seq (Re.Chr "#") (Re.NotIn ["#"; "*"; ":"]%char).

(** [r'[^@]\[\[User(?:_talk)?:([^|\]]+)'] *)
Definition username_regexp : Re.regex :=
  Re.Seq (Re.NotIn ["@"%char])
    (Re.Seq (Re.lit "[[User")
       (Re.Seq (Re.Opt (Re.lit "_talk"))
          (Re.Seq (Re.Chr ":")
             (Re.Group (Re.PlusNotIn ["|"; "]"]%char))))).

Definition is_some {A} (o : option A) : bool :=
  match o with Some _ => true | None => false end.

(** [Vote.filter_vote_lines]: the generator run to its end. *)
Definition filter_vote_lines (lines : list string) : list string :=
  filter (fun line => is_some (Re.match_ vote_line_regexp line)) lines.

(** ** State and exceptions

    A method that assigns to the attributes of [self] before it raises
    leaves them assigned: a computation takes the object and gives it back
    with either a value or the exception. *)

Definition SE (S A : Type) : Type := S -> S * result A.

Definition ret {S A} (a : A) : SE S A := fun s => (s, Ok a).

Definition raise {S A} (e : exn) : SE S A := fun s => (s, Raise e).

Definition bind {S A B} (c : SE S A) (f : A -> SE S B) : SE S B :=
  fun s =>
    match c s with
    | (s', Ok a) => f a s'
    | (s', Raise e) => (s', Raise e)
    end.

Definition lift {S A} (r : result A) : SE S A := fun s => (s, r).

Definition get {S} : SE S S := fun s => (s, Ok s).

Definition modify {S} (f : S -> S) : SE S unit := fun s => (f s, Ok tt).

Declare Scope se_scope.
Delimit Scope se_scope with se.
Notation "x <- c ;; f" := (bind c (fun x => f))
  (at level 61, c at next level, right associativity) : se_scope.
Notation "c ;;; f" := (bind c (fun _ => f))
  (at level 61, right associativity) : se_scope.

Declare Scope result_scope.
Delimit Scope result_scope with result.
Notation "x <- c ;; f" := (rbind c (fun x => f))
  (at level 61, c at next level, right associativity) : result_scope.

(** ** Responses of the wiki API

    The program reads the decoded JSON by key; a key it reads with [d[k]]
    is an optional field here, and reading it when it is missing raises
    [KeyError].  Field names carry the prefix of the API module that
    produces them. *)

Definition DateTime : Type := Z.

(** An entry of [globaluserinfo]'s [merged] list. *)
Record Account : Type := {
  acc_wiki : option string;
  acc_url : option string
}.

Record GlobalUserInfo : Type := {
  gui_home : option string;
  gui_editcount : option Z;
  gui_merged : option (list Account)
}.

(** An entry of the [users] list. *)
Record UserInfo : Type := {
  us_missing : bool;                   (* 'missing' in local_data *)
  us_invalid : bool;                   (* 'invalid' in local_data *)
  us_groups : option (list string);
  us_editcount : option Z
}.

(** An entry of the [usercontribs] list. *)
Record UserContrib : Type := {
  uc_timestamp : option string
}.

Record Revision : Type := {
  rv_content : option string           (* r['*'] *)
}.

Record PageInfo : Type := {
  pg_revisions : option (list Revision)
}.

(** The value under ['query']; [q_pages] is [pages.values()]. *)
Record Query : Type := {
  q_users : option (list UserInfo);
  q_usercontribs : option (list UserContrib);
  q_globaluserinfo : option GlobalUserInfo;
  q_pages : option (list PageInfo)
}.

Record Response : Type := {
  query : option Query
}.

(** The three requests the program makes. *)
Inductive params : Type :=
| LocalUserQuery (username : string)
    (* list=users|usercontribs, meta=globaluserinfo: User.load_data *)
| SiteUserQuery (username : string)
    (* list=users|usercontribs: GlobalUser.load_data *)
| RevisionQuery (revids : option Z) (titles : option string) (rvsection : Z).
    (* prop=revisions: Api.get_section_text *)

(** What the program takes from outside its source file. *)
Record Environment : Type := {
  splitlines : string -> list string;
    (* text.splitlines(), on the unicode text of a section: the lines of
       the text in their order, at the line boundaries of Python *)
  unescape : string -> string;
    (* HTMLParser.HTMLParser().unescape *)
  strptime : string -> string -> result DateTime;
    (* datetime.strptime(text, format) *)
  date_regexp_search : string -> option string;
    (* re.search(config.date_regexp, line), then m.group(0) *)
  date_format : string;
    (* config.date_format *)
  request : string -> params -> result Response
    (* wikitools.api.APIRequest(endpoint, params).query(False) *)
}.

(** Truth values of Python objects, as [if x:] takes them. *)
Definition truthy_str (s : option string) : bool :=
  match s with
  | Some (String _ _) => true
  | _ => false
  end.

Definition truthy_int (n : option Z) : bool :=
  match n with
  | Some n => negb (n =? 0)%Z
  | None => false
  end.

(** ** class Api *)

Module Api.

Record t : Type := { endpoint : string }.

Definition from_domain (domain : string) : t :=
  {| endpoint := "http://" ++ domain ++ "/w/api.php" |}.

Definition from_globaluserinfo_url (url : string) : t :=
  {| endpoint := url ++ "/w/api.php" |}.

(** The loop of [chunks] that fills the chunk: [size] turns at most, each
    taking the next element, left at the first [StopIteration]; the chunk,
    and whether the iterator ran out. *)
Fixpoint fill_chunk {A : Type} (size : nat) (seq chunk : list A)
  : list A * bool :=
  match size with
  | O => (chunk, false)
  | S size' =>
      match seq with
      | [] => (chunk, true)
      | x :: seq' => fill_chunk size' seq' (chunk ++ [x])%list
      end
  end.

(** [chunks]: the generator run to its end; [range(size)] is empty for a
    size below one. *)
Definition chunks {A : Type} (seq : list A) (size : Z) : list (list A) :=
  match fill_chunk (Z.to_nat size) seq [] with
  | (chunk, true) =>
      match chunk with
      | [] => []
      | _ => [chunk]
      end
  | (chunk, false) => [chunk]
  end.

Section WithEnvironment.
Variable env : Environment.

Definition timestamp_to_datetime (timestamp : string) : result DateTime :=
  strptime env timestamp "%Y-%m-%dT%H:%M:%SZ".

Definition call (self : t) (p : params) : result Response :=
  request env (endpoint self) p.

(** The loops of [get_section_text]: the text of the first revision of the
    first page that has one; [None] when the loops end without a return. *)
Fixpoint first_revision (pages : list PageInfo) : result (option string) :=
  match pages with
  | [] => Ok None
  | p :: pages' =>
      (revisions <- getitem (pg_revisions p) ;;
       match revisions with
       | r :: _ => (text <- getitem (rv_content r) ;; Ok (Some text))%result
       | [] => first_revision pages'
       end)%result
  end.

Definition get_section_text (self : t) (page : option string)
           (revision : option Z) (section : option Z)
  : result (option string) :=
  if negb (truthy_int section)
     || (negb (truthy_str page) && negb (truthy_int revision))
  then Raise ValueError
  else
    match section with
    | None => Raise ValueError          (* [not section], as above *)
    | Some rvsection =>
        let p := if truthy_int revision
                 then RevisionQuery revision None rvsection
                 else RevisionQuery None page rvsection in
        (response <- call self p ;;
         q <- getitem (query response) ;;
         pages <- getitem (q_pages q) ;;
         first_revision pages)%result
    end.

End WithEnvironment.
End Api.

(** ** class GlobalUser *)

(** An attribute of an object: [del] removes it from the dictionary of
    the object. *)
Inductive attribute (A : Type) : Type :=
| Deleted
| Attr (a : A).
Arguments Deleted {A}.
Arguments Attr {A} a.

Module GlobalUser.

Record t : Type := {
  username : string;
  home_wiki : option string;
  wikis : attribute (option (list string));
  wiki_urls : attribute (option (list string));
  editcount : option Z;
  groups : option (list string);
  first_edit : option DateTime
}.

Definition init (username : string) : t :=
  {| username := username; home_wiki := None; wikis := Attr None;
     wiki_urls := Attr None; editcount := None; groups := None;
     first_edit := None |}.

Definition set_wikis v (g : t) : t :=
  {| username := username g; home_wiki := home_wiki g; wikis := v;
     wiki_urls := wiki_urls g; editcount := editcount g; groups := groups g;
     first_edit := first_edit g |}.

Definition set_wiki_urls v (g : t) : t :=
  {| username := username g; home_wiki := home_wiki g; wikis := wikis g;
     wiki_urls := v; editcount := editcount g; groups := groups g;
     first_edit := first_edit g |}.

Definition set_groups v (g : t) : t :=
  {| username := username g; home_wiki := home_wiki g; wikis := wikis g;
     wiki_urls := wiki_urls g; editcount := editcount g; groups := v;
     first_edit := first_edit g |}.

Definition set_first_edit v (g : t) : t :=
  {| username := username g; home_wiki := home_wiki g; wikis := wikis g;
     wiki_urls := wiki_urls g; editcount := editcount g; groups := groups g;
     first_edit := v |}.

(** [del self_dict[k]] on the dictionary of the object itself. *)
Definition del {A} (a : attribute A) : result (attribute A) :=
  match a with
  | Attr _ => Ok Deleted
  | Deleted => Raise KeyError
  end.

(** [to_dict]: [self_dict] is [self.__dict__], not a copy of it, so the
    two [del] remove the attributes of the object; the dictionary returned
    is the object's own, whose content is the state given back. *)
Definition to_dict : SE t unit :=
  (self <- get ;;
   w <- lift (del (wikis self)) ;;
   modify (set_wikis w) ;;;
   self <- get ;;
   u <- lift (del (wiki_urls self)) ;;
   modify (set_wiki_urls u))%se.

(** The loop of [from_globaluserinfo] over [global_data['merged']]. *)
Fixpoint merged_accounts (accounts : list Account) (wikis urls : list string)
  : result (list string * list string) :=
  match accounts with
  | [] => Ok (wikis, urls)
  | account :: accounts' =>
      (wiki <- getitem (acc_wiki account) ;;
       url <- getitem (acc_url account) ;;
       merged_accounts accounts' (wikis ++ [wiki])%list (urls ++ [url])%list)%result
  end.

Definition from_globaluserinfo (username : string)
           (global_data : GlobalUserInfo) : result t :=
  (home <- getitem (gui_home global_data) ;;
   count <- getitem (gui_editcount global_data) ;;
   merged <- getitem (gui_merged global_data) ;;
   lists <- merged_accounts merged [] [] ;;
   Ok {| username := username; home_wiki := Some home;
         wikis := Attr (Some (fst lists));
         wiki_urls := Attr (Some (snd lists));
         editcount := Some count; groups := None; first_edit := None |})%result.

Section WithEnvironment.
Variable env : Environment.

(** [not self.first_edit or first_edit_on_this_wiki < self.first_edit] *)
Definition earlier (first_edit_on_this_wiki : DateTime)
           (first_edit : option DateTime) : bool :=
  match first_edit with
  | None => true
  | Some d => (first_edit_on_this_wiki <? d)%Z
  end.

(** One turn of the loop of [load_data]; [self.groups.extend] is looked
    up before its argument is read. *)
Definition load_site (url : string) : SE t unit :=
  (self <- get ;;
   let api := Api.from_globaluserinfo_url url in
   response <- lift (Api.call env api (SiteUserQuery (username self))) ;;
   data <- lift (getitem (query response)) ;;
   match groups self with
   | None => raise AttributeError
   | Some so_far =>
       users <- lift (getitem (q_users data)) ;;
       user <- lift (index0 users) ;;
       site_groups <- lift (getitem (us_groups user)) ;;
       modify (set_groups (Some (so_far ++ site_groups)%list)) ;;;
       contribs <- lift (getitem (q_usercontribs data)) ;;
       match contribs with
       | [] => ret tt
       | c :: _ =>
           timestamp <- lift (getitem (uc_timestamp c)) ;;
           first_edit_on_this_wiki <-
             lift (Api.timestamp_to_datetime env timestamp) ;;
           self <- get ;;
           if earlier first_edit_on_this_wiki (first_edit self)
           then modify (set_first_edit (Some first_edit_on_this_wiki))
           else ret tt
       end
   end)%se.

Fixpoint load_sites (urls : list string) : SE t unit :=
  match urls with
  | [] => ret tt
  | url :: urls' => (load_site url ;;; load_sites urls')%se
  end.

Definition load_data : SE t unit :=
  (modify (set_groups (Some [])) ;;;
   self <- get ;;
   match wiki_urls self with
   | Deleted => raise AttributeError
   | Attr None => raise TypeError
   | Attr (Some urls) => load_sites urls
   end)%se.

End WithEnvironment.
End GlobalUser.

(** ** class User *)

(** What the attribute [global_user] holds: [None] (not loaded), [False]
    (not attached), the [GlobalUser], or, once [to_dict] has run, the
    dictionary of that object in its place. *)
Inductive global_user_value : Type :=
| GNone
| GFalse
| GObject (g : GlobalUser.t)
| GDict (g : GlobalUser.t).

Module User.

Record t : Type := {
  api : Api.t;
  username : string;
  global_user : global_user_value;
  editcount : option Z;
  groups : option (list string);
  first_edit : option DateTime
}.

Definition init (api : Api.t) (username : string) : t :=
  {| api := api; username := username; global_user := GNone;
     editcount := None; groups := None; first_edit := None |}.

Definition set_global_user v (u : t) : t :=
  {| api := api u; username := username u; global_user := v;
     editcount := editcount u; groups := groups u;
     first_edit := first_edit u |}.

Definition set_editcount v (u : t) : t :=
  {| api := api u; username := username u; global_user := global_user u;
     editcount := v; groups := groups u; first_edit := first_edit u |}.

Definition set_groups v (u : t) : t :=
  {| api := api u; username := username u; global_user := global_user u;
     editcount := editcount u; groups := v; first_edit := first_edit u |}.

Definition set_first_edit v (u : t) : t :=
  {| api := api u; username := username u; global_user := global_user u;
     editcount := editcount u; groups := groups u; first_edit := v |}.

(** [to_dict], on [self.__dict__] itself: a [GlobalUser] held in
    [global_user] is replaced by its dictionary; a dictionary already there
    is true and has no [to_dict]. *)
Definition to_dict : SE t unit :=
  (self <- get ;;
   match global_user self with
   | GNone | GFalse => ret tt
   | GObject g =>
       match GlobalUser.to_dict g with
       | (g', Ok _) => modify (set_global_user (GDict g'))
       | (g', Raise e) => modify (set_global_user (GObject g')) ;;; raise e
       end
   | GDict _ => raise AttributeError
   end)%se.

(** The loop of [data_is_global], left at the first account of the anchor
    wiki. *)
Fixpoint has_commonswiki (accounts : list Account) : result bool :=
  match accounts with
  | [] => Ok false
  | account :: accounts' =>
      (wiki <- getitem (acc_wiki account) ;;
       if String.eqb wiki "commonswiki" then Ok true
       else has_commonswiki accounts')%result
  end.

Definition data_is_global (global_data : GlobalUserInfo) : result bool :=
  match gui_merged global_data with
  | Some accounts => has_commonswiki accounts
  | None => Ok false
  end.

(** [not data]: no argument, or a dictionary without a key. *)
Definition no_data (data : option Query) : bool :=
  match data with
  | None => true
  | Some q =>
      negb (is_some (q_users q) || is_some (q_usercontribs q)
            || is_some (q_globaluserinfo q) || is_some (q_pages q))
  end.

Section WithEnvironment.
Variable env : Environment.

(** The request of [load_data], and the value under ['query']. *)
Definition local_query (self : t) : result Query :=
  (response <- Api.call env (api self) (LocalUserQuery (username self)) ;;
   getitem (query response))%result.

(** [if not data: data = self.api(...)['query']] *)
Definition given_or_queried (self : t) (data : option Query) : result Query :=
  match data with
  | Some q => if no_data data then local_query self else Ok q
  | None => local_query self
  end.

Definition load_data (data : option Query) : SE t unit :=
  (self <- get ;;
   data <- lift (given_or_queried self data) ;;
   users <- lift (getitem (q_users data)) ;;
   local_data <- lift (index0 users) ;;
   global_data <- lift (getitem (q_globaluserinfo data)) ;;
   if us_missing local_data || us_invalid local_data
   then raise (NoSuchUserException (username self))
   else
     local_groups <- lift (getitem (us_groups local_data)) ;;
     modify (set_groups (Some local_groups)) ;;;
     count <- lift (getitem (us_editcount local_data)) ;;
     modify (set_editcount (Some count)) ;;;
     contribs <- lift (getitem (q_usercontribs data)) ;;
     first_contrib <- lift (index0 contribs) ;;
     first_local_edit <- lift (getitem (uc_timestamp first_contrib)) ;;
     first <- lift (Api.timestamp_to_datetime env first_local_edit) ;;
     modify (set_first_edit (Some first)) ;;;
     is_global <- lift (data_is_global global_data) ;;
     if is_global : bool
     then
       g <- lift (GlobalUser.from_globaluserinfo (username self) global_data) ;;
       (* self.global_user.load_data() is commented out in the source *)
       modify (set_global_user (GObject g))
     else modify (set_global_user GFalse))%se.

End WithEnvironment.

(** ['sysop' in self.groups]; [in None] raises. *)
Definition is_admin (self : t) : result bool :=
  match groups self with
  | Some l => Ok (existsb (String.eqb "sysop") l)
  | None => Raise TypeError
  end.

(** [get_global_editcount]; a dictionary in [global_user] is true and has
    no attribute [editcount]. *)
Definition get_global_editcount (self : t) : result (option Z) :=
  match global_user self with
  | GNone | GFalse => Ok None
  | GObject g => Ok (GlobalUser.editcount g)
  | GDict _ => Raise AttributeError
  end.

Definition get_home_wiki (self : t) : result (option string) :=
  match global_user self with
  | GNone | GFalse => Ok None
  | GObject g => Ok (GlobalUser.home_wiki g)
  | GDict _ => Raise AttributeError
  end.

End User.

(** ** Markup

    [re.sub(r'<.*?>', '', text)]: from left to right, each opening angle
    bracket that has a closing one after it on the same line is removed
    with everything up to the nearest such closing bracket. *)

(** What follows the nearest closing bracket, when no line feed comes
    before it. *)
Fixpoint after_tag (s : string) : option string :=
  match s with
  | EmptyString => None
  | String c s' =>
      if Ascii.eqb c ">" then Some s'
      else if Ascii.eqb c "010" then None
      else after_tag s'
  end.

(** The substitution, with one unit of fuel for each character at most. *)
Fixpoint sub_tags (fuel : nat) (s : string) : string :=
  match fuel with
  | O => s
  | S fuel' =>
      match s with
      | EmptyString => ""
      | String c s' =>
          if Ascii.eqb c "<"
          then match after_tag s' with
               | Some rest => sub_tags fuel' rest
               | None => String c (sub_tags fuel' s')
               end
          else String c (sub_tags fuel' s')
      end
  end.

Definition strip_tags (s : string) : string := sub_tags (String.length s) s.

(** ** class Vote *)

(** What the attribute [user] holds: [None], the [User], or, once [to_dict]
    has run, the dictionary of that object in its place. *)
Inductive user_value : Type :=
| UNone
| UObject (u : User.t)
| UDict (u : User.t).

Module Vote.

Record t : Type := {
  section_label : option string;
  text : option string;
  user : user_value;
  datetime : option DateTime;
  local_gap : option Z;
  global_gap : option Z
}.

Definition init : t :=
  {| section_label := None; text := None; user := UNone; datetime := None;
     local_gap := None; global_gap := None |}.

Definition set_user v (vote : t) : t :=
  {| section_label := section_label vote; text := text vote; user := v;
     datetime := datetime vote; local_gap := local_gap vote;
     global_gap := global_gap vote |}.

(** [to_dict], on [self.__dict__] itself: a [User] held in [user] is
    replaced by its dictionary. *)
Definition to_dict : SE t unit :=
  (self <- get ;;
   match user self with
   | UNone => ret tt
   | UObject u =>
       match User.to_dict u with
       | (u', Ok _) => modify (set_user (UDict u'))
       | (u', Raise e) => modify (set_user (UObject u')) ;;; raise e
       end
   | UDict _ => raise AttributeError
   end)%se.

(** [__str__] is [str(self.to_dict())]: on the object it does what
    [to_dict] does. *)
Definition str : SE t unit := to_dict.

Section WithEnvironment.
Variable env : Environment.

(** [parse_username]; [None] is Python's [None], which the function
    returns when it falls off its end. *)
Definition parse_username (line : string) : option string :=
  match Re.search username_regexp line with
  | Some m =>
      match Re.group1 m with
      | Some username => Some (unescape env username)
      | None => None   (* not reached: group 1 is part of every match *)
      end
  | None => None
  end.

Definition parse_datetime (line : string) : result (option DateTime) :=
  match date_regexp_search env line with
  | Some group0 =>
      (d <- strptime env group0 (date_format env) ;; Ok (Some d))%result
  | None => Ok None
  end.

(** [from_line]; [api] is [page.api].  The vote is local to the call until
    it is returned, so nothing is left of it when the call raises. *)
Definition from_line (api : Api.t) (line : string) (label : string)
  : result t :=
  (d <- parse_datetime line ;;
   let vote := {| section_label := Some label; text := Some line;
                  user := UNone; datetime := d;
                  local_gap := None; global_gap := None |} in
   if truthy_str (parse_username line)
   then
     match parse_username line with
     | Some username =>
         match User.load_data env None (User.init api username) with
         | (u, Ok _) => Ok (set_user (UObject u) vote)
         | (_, Raise (NoSuchUserException _)) => Ok (set_user UNone vote)
         | (_, Raise e) => Raise e
         end
     | None => Ok vote
     end
   else Ok vote)%result.

(** [get_plaintext]; [re.sub] raises on [None]. *)
Definition get_plaintext (self : t) : result string :=
  match text self with
  | Some text => Ok (unescape env (strip_tags text))
  | None => Raise TypeError
  end.

End WithEnvironment.
End Vote.

(** ** class VotePage *)

(** The argument [section] of [get_votes]: absent, a label or an id. *)
Inductive section_arg : Type :=
| AnySection
| SectionLabel (label : string)
| SectionId (id : Z).

(** What a consumer of the generator [get_votes] sees, in order: the
    section texts asked for and the votes yielded. *)
Inductive event : Type :=
| GetSectionText (section : Z)
| Yield (vote : Vote.t).

(** How the generator ends. *)
Inductive ending : Type :=
| Exhausted
| Raised (e : exn).

Module VotePage.

Record t : Type := {
  api : Api.t;
  page : option string;
  revision : option Z;
  sections : list (string * Z)         (* an OrderedDict, as its items *)
}.

(** [sorted(..., key=lambda t: t[1])]: a stable sort on the section id. *)
Fixpoint insert_by_id (x : string * Z) (l : list (string * Z))
  : list (string * Z) :=
  match l with
  | [] => [x]
  | y :: l' => if (snd x <=? snd y)%Z then x :: y :: l'
               else y :: insert_by_id x l'
  end.

Fixpoint sorted_by_id (items : list (string * Z)) : list (string * Z) :=
  match items with
  | [] => []
  | x :: items' => insert_by_id x (sorted_by_id items')
  end.

(** [create_ordered_dict]; [sections] is [sections.items()], in the order
    the dictionary gives them. *)
Definition create_ordered_dict (sections : list (string * Z))
  : list (string * Z) :=
  sorted_by_id sections.

(** [__init__]; [sections=None] and an empty dictionary are both false. *)
Definition init (api : Api.t) (page : option string) (revision : option Z)
           (sections : list (string * Z)) : result t :=
  match sections with
  | [] => Raise ValueError
  | _ =>
      if negb (truthy_str page) && negb (truthy_int revision)
      then Raise ValueError
      else Ok {| api := api; page := page; revision := revision;
                 sections := create_ordered_dict sections |}
  end.

(** [section and section_label != section and section_id != section] *)
Definition skips (section : section_arg) (label : string) (id : Z) : bool :=
  match section with
  | AnySection => false
  | SectionLabel s => truthy_str (Some s) && negb (String.eqb label s)
  | SectionId n => truthy_int (Some n) && negb (id =? n)%Z
  end.

(** [i == limit] *)
Definition reached (i : Z) (limit : option Z) : bool :=
  match limit with
  | Some n => (i =? n)%Z
  | None => false
  end.

(** [get_page_arg]: the dictionary has the key ['revision'] or the key
    ['page'], given here as the two optional entries. *)
Definition get_page_arg (self : t) : option Z * option (option string) :=
  if truthy_int (revision self)
  then (revision self, None)
  else (None, Some (page self)).

Section WithEnvironment.
Variable env : Environment.

(** [get_vote_lines]: the lines are read when the generator is first
    advanced; [None.splitlines()] raises.  ([args], built from
    [get_page_arg], is not used by the method.) *)
Definition get_vote_lines (self : t) (section : Z) : result (list string) :=
  (text <- Api.get_section_text env (api self) (page self) (revision self)
             (Some section) ;;
   match text with
   | Some text => Ok (filter_vote_lines (splitlines env text))
   | None => Raise AttributeError
   end)%result.

(** The inner loop of [get_votes] over the lines of one section: the
    events, the counter, and whether the loop left with [return]. *)
Fixpoint votes_of_lines (self : t) (label : string) (limit : option Z)
         (lines : list string) (i : Z) : list event * Z * bool :=
  match lines with
  | [] => ([], i, false)
  | line :: lines' =>
      let i := (i + 1)%Z in
      let yielded :=
        match Vote.from_line env (api self) line label with
        | Ok vote => [Yield vote]
        | Raise _ => []                  (* except: pass *)
        end in
      if reached i limit then (yielded, i, true)
      else
        let '(events, i', returned) := votes_of_lines self label limit lines' i in
        ((yielded ++ events)%list, i', returned)
  end.

(** The outer loop of [get_votes]. *)
Fixpoint votes_of_sections (self : t) (section : section_arg)
         (limit : option Z) (items : list (string * Z)) (i : Z)
  : list event * ending :=
  match items with
  | [] => ([], Exhausted)
  | (section_label, section_id) :: items' =>
      if skips section section_label section_id
      then votes_of_sections self section limit items' i
      else
        match get_vote_lines self section_id with
        | Raise e => ([GetSectionText section_id], Raised e)
        | Ok lines =>
            let '(events, i', returned) :=
              votes_of_lines self section_label limit lines i in
            if returned : bool
            then (GetSectionText section_id :: events, Exhausted)
            else
              let '(events', e) :=
                votes_of_sections self section limit items' i' in
              ((GetSectionText section_id :: events ++ events')%list, e)
        end
  end.

Definition get_votes (self : t) (section : section_arg) (limit : option Z)
  : list event * ending :=
  votes_of_sections self section limit (sections self) 0%Z.

End WithEnvironment.
End VotePage.

(** The votes among the events. *)
Fixpoint votes (events : list event) : list Vote.t :=
  match events with
  | [] => []
  | Yield vote :: events' => vote :: votes events'
  | GetSectionText _ :: events' => votes events'
  end.

(** The sections whose text was asked for. *)
Fixpoint fetched (events : list event) : list Z :=
  match events with
  | [] => []
  | GetSectionText id :: events' => id :: fetched events'
  | Yield _ :: events' => fetched events'
  end.

(** ** class CsvVoteWriter and the script

    The file, the encoding of a string and the standard output are
    outside the program: they appear as operations that may raise. *)

(** A cell of a row before it is made text: a string, an integer or
    [None]. *)
Inductive cell : Type :=
| Text (s : string)
| Number (n : Z)
| NoValue.

Module CsvVoteWriter.

(** The first row written by [open]. *)
Definition header : list string :=
  ["User"; "!vote section"; "!vote date"; "Commons edit count";
   "First Commons edit"; "Global edit count"; "Home wiki"; "Full text"].

Section WithEnvironment.
Variable env : Environment.
(** [datetime.isoformat(' ')] *)
Variable isoformat : DateTime -> string.

Definition optional_text (s : option string) : cell :=
  match s with
  | Some s => Text s
  | None => NoValue
  end.

(** [x.attr if vote.user else '-']: a dictionary in [user] is true and has
    no attribute. *)
Definition of_user {A : Type} (vote : Vote.t) (f : User.t -> result A)
           (absent : A) : result A :=
  match Vote.user vote with
  | UNone => Ok absent
  | UObject u => f u
  | UDict _ => Raise AttributeError
  end.

(** The list that [write] builds, its entries read from left to right. *)
Definition row (vote : Vote.t) : result (list cell) :=
  (username <- of_user vote (fun u => Ok (Text (User.username u))) (Text "-") ;;
   let section_label := optional_text (Vote.section_label vote) in
   let date := match Vote.datetime vote with
               | Some d => Text (isoformat d)
               | None => Text "-"
               end in
   editcount <- of_user vote
                  (fun u => Ok (match User.editcount u with
                                | Some n => Number n
                                | None => NoValue
                                end))
                  (Text "-") ;;
   first_edit <- of_user vote
                   (fun u => match User.first_edit u with
                             | Some d => Ok (Text (isoformat d))
                             | None => Raise AttributeError
                             end)
                   (Text "-") ;;
   global_editcount <- of_user vote
                         (fun u =>
                            count <- User.get_global_editcount u ;;
                            Ok (match count with
                                | Some n => if (n =? 0)%Z then Text "-"
                                            else Number n
                                | None => Text "-"
                                end))
                         (Text "-") ;;
   home_wiki <- of_user vote
                  (fun u =>
                     home <- User.get_home_wiki u ;;
                     Ok (if truthy_str home then optional_text home
                         else Text "commonswiki"))
                  (Text "-") ;;
   plaintext <- Vote.get_plaintext env vote ;;
   Ok [username; section_label; date; editcount; first_edit;
       global_editcount; home_wiki; Text plaintext])%result.

(** What the writer and the script do to the outside; each of these may
    raise. *)
(** [s.encode('utf-8')] on a string of a row *)
Variable encode : string -> result string.
(** [str(s)] on an integer of a row *)
Variable str_of_int : Z -> string.
(** [open(self.filename, 'wt')] and the byte order mark written to it *)
Variable file_open : result unit.
(** [self.writer.writerow(row)] on the open file *)
Variable file_writerow : list string -> result unit.
(** [self.file.close()] *)
Variable file_close : result unit.
(** [print('%d: %s' % (i, name))] *)
Variable print_progress : Z -> string -> result unit.

(** An entry of a row made text, as the comprehension of [writerow]
    does. *)
Definition cell_text (c : cell) : result string :=
  match c with
  | Text s => encode s
  | Number n => Ok (str_of_int n)
  | NoValue => Ok "None"
  end.

Fixpoint cells_text (row : list cell) : result (list string) :=
  match row with
  | [] => Ok []
  | c :: row' =>
      (t <- cell_text c ;;
       ts <- cells_text row' ;;
       Ok (t :: ts))%result
  end.

(** [writerow]; the value is the row as the file received it. *)
Definition writerow (row : list cell) : result (list string) :=
  (cells <- cells_text row ;;
   _ <- file_writerow cells ;;
   Ok cells)%result.

(** [write] *)
Definition write (vote : Vote.t) : result (list string) :=
  (r <- row vote ;; writerow r)%result.

(** [open], called by [__init__]: the file, then the header. *)
Definition open : result (list string) :=
  (_ <- file_open ;; writerow (map Text header))%result.

(** The line printed after a vote is written. *)
Definition progress (i : Z) (vote : Vote.t) : result unit :=
  (name <- of_user vote (fun u => Ok (User.username u)) "-" ;;
   print_progress i name)%result.

(** The loop of the script over the generator: each vote is written and
    announced when it is yielded, [i] counting them; the rows the file
    received, and the exception that left the loop, if one did. *)
Fixpoint write_all (events : list event) (i : Z)
  : list (list string) * option exn :=
  match events with
  | [] => ([], None)
  | GetSectionText _ :: events' => write_all events' i
  | Yield vote :: events' =>
      match write vote with
      | Raise e => ([], Some e)
      | Ok cells =>
          match progress i vote with
          | Raise e => ([cells], Some e)
          | Ok _ =>
              let '(rows, e) := write_all events' (i + 1)%Z in
              (cells :: rows, e)
          end
      end
  end.

(** The script: the page of the configuration, the writer opened, all the
    votes written, the file closed on the way out; the rows the file
    received, and how the run ends. *)
Definition main (wiki : string) (page : option string) (revision : option Z)
           (sections : list (string * Z)) : list (list string) * ending :=
  match VotePage.init (Api.from_domain wiki) page revision sections with
  | Raise e => ([], Raised e)
  | Ok vote_page =>
      match open with
      | Raise e => ([], Raised e)
      | Ok head =>
          let '(events, e) := VotePage.get_votes env vote_page AnySection None in
          let '(rows, stopped) := write_all events 0%Z in
          (head :: rows,
           match file_close with
           | Raise e' => Raised e'
           | Ok _ =>
               match stopped with
               | Some e' => Raised e'
               | None => e
               end
           end)
      end
  end.

End WithEnvironment.
End CsvVoteWriter.

(** ** Reference readings of the text operations

    The line filter and the signature parser as their descriptions read,
    written on the characters of the line, to be compared with the regular
    expressions of the program. *)

(** A top-level numbered-list entry: the list marker, then a character
    that is none of the markers of nested markup. *)
Definition top_level_entry (line : string) : bool :=
  match line with
  | String c1 (String c2 _) =>
      Ascii.eqb c1 "#"
      && negb (Ascii.eqb c2 "#" || Ascii.eqb c2 "*" || Ascii.eqb c2 ":")
  | _ => false
  end.

Fixpoint strip_prefix (p s : string) : option string :=
  match p with
  | EmptyString => Some s
  | String a p' =>
      match s with
      | String b s' => if Ascii.eqb a b then strip_prefix p' s' else None
      | EmptyString => None
      end
  end.

(** The longest head of [s] without a pipe or a closing bracket, and what
    follows it. *)
Fixpoint name_of (s : string) : string :=
  match s with
  | EmptyString => ""
  | String c s' =>
      if Ascii.eqb c "|" || Ascii.eqb c "]" then "" else String c (name_of s')
  end.

Fixpoint after_name (s : string) : string :=
  match s with
  | EmptyString => ""
  | String c s' =>
      if Ascii.eqb c "|" || Ascii.eqb c "]" then s else after_name s'
  end.

Definition nonempty (s : string) : option string :=
  match s with
  | EmptyString => None
  | _ => Some s
  end.

(** The user named by a link to a user page or a user talk page at the
    head of [s]. *)
Definition link_name (s : string) : option string :=
  match strip_prefix "[[User:" s with
  | Some target => nonempty (name_of target)
  | None =>
      match strip_prefix "[[User_talk:" s with
      | Some target => nonempty (name_of target)
      | None => None
      end
  end.

Definition starts_with_link (s : string) : bool := is_some (link_name s).

(** The first link that does not come right after the mention marker;
    [prev] is the character before [s], if there is one. *)
Fixpoint first_unmentioned_link (prev : option ascii) (s : string)
  : option string :=
  match (match prev with
         | Some c => if Ascii.eqb c "@" then None else link_name s
         | None => link_name s
         end) with
  | Some name => Some name
  | None =>
      match s with
      | EmptyString => None
      | String c s' => first_unmentioned_link (Some c) s'
      end
  end.

Definition extractIdentity_as_claimed (env : Environment) (line : string)
  : option string :=
  option_map (unescape env) (first_unmentioned_link None line).

(** The first link that comes right after a character other than the
    mention marker. *)
Fixpoint first_signature (s : string) : option string :=
  match s with
  | EmptyString => None
  | String c s' =>
      if Ascii.eqb c "@" then first_signature s'
      else match link_name s' with
           | Some name => Some name
           | None => first_signature s'
           end
  end.

Definition extractIdentity_amended (env : Environment) (line : string)
  : option string :=
  option_map (unescape env) (first_signature line).

(** The signature that starts at the head of [s]: a character other than
    the mention marker, then a link. *)
Definition signature_at (s : string) : option string :=
  match s with
  | EmptyString => None
  | String c s' => if Ascii.eqb c "@" then None else link_name s'
  end.

(** The name found by a search, if any. *)
Definition found (m : option Re.Match) : option string :=
  match m with
  | Some m => Re.group1 m
  | None => None
  end.

Definition string_tail (s : string) : string :=
  match s with
  | EmptyString => ""
  | String _ s' => s'
  end.

(** ** Reference readings of extraction *)

Section Extraction.
Variable env : Environment.
Variable self : VotePage.t.

(** The candidate lines of the sections, each with the label of its
    section, in the order of the registry and then of the text; a section
    whose text cannot be read ends the run. *)
Fixpoint candidate_lines (items : list (string * Z)) : list (string * string) :=
  match items with
  | [] => []
  | (label, id) :: items' =>
      match VotePage.get_vote_lines env self id with
      | Ok lines => (map (pair label) lines ++ candidate_lines items')%list
      | Raise _ => []
      end
  end.

(** The votes built from labelled lines, without those whose building
    raises. *)
Fixpoint built (lines : list (string * string)) : list Vote.t :=
  match lines with
  | [] => []
  | (label, line) :: lines' =>
      match Vote.from_line env (VotePage.api self) line label with
      | Ok vote => vote :: built lines'
      | Raise _ => built lines'
      end
  end.

(** The events of the line that is read: its vote, if it could be built. *)
Definition yielded (label line : string) : list event :=
  match Vote.from_line env (VotePage.api self) line label with
  | Ok vote => [Yield vote]
  | Raise _ => []
  end.

(** Every section of [items] can be read. *)
Definition readable (items : list (string * Z)) : Prop :=
  forall label id,
    In (label, id) items ->
    exists lines, VotePage.get_vote_lines env self id = Ok lines.

(** Building a vote from the labelled line does not raise. *)
Definition builds (labelled : string * string) : Prop :=
  exists vote,
    Vote.from_line env (VotePage.api self) (snd labelled) (fst labelled)
    = Ok vote.

End Extraction.

(** The earliest of the first contributions reported by the sites. *)
Fixpoint earliest (reports : list (option DateTime)) : option DateTime :=
  match reports with
  | [] => None
  | None :: reports' => earliest reports'
  | Some d :: reports' =>
      match earliest reports' with
      | Some d' => Some (Z.min d d')
      | None => Some d
      end
  end.

(** ** A small wiki

    A concrete environment on which the statements below are run: a
    vote page of two sections on a wiki whose accounts are a federated
    administrator, an account without the anchor wiki among its merged
    ones, an account without contributions, a name that is not registered
    and a name whose lookup fails in transport. *)

Module Fixture.

(** [s] reversed onto [acc]. *)
Fixpoint rev_string (acc s : string) : string :=
  match s with
  | EmptyString => acc
  | String c s' => rev_string (String c acc) s'
  end.

(** [splitlines] on a text whose only line boundaries are the line feed,
    the carriage return and the pair of them, as the texts of this wiki
    are: the boundaries are dropped and a text that ends with one has no
    empty last line.  [cur] is the line being read, reversed. *)
Fixpoint plain_lines_from (cur : string) (s : string) : list string :=
  match s with
  | EmptyString =>
      match cur with
      | EmptyString => []
      | _ => [rev_string "" cur]
      end
  | String c s' =>
      if Ascii.eqb c "010" then rev_string "" cur :: plain_lines_from "" s'
      else if Ascii.eqb c "013" then
        match s' with
        | String c2 s'' =>
            if Ascii.eqb c2 "010"
            then rev_string "" cur :: plain_lines_from "" s''
            else rev_string "" cur :: plain_lines_from "" s'
        | EmptyString => rev_string "" cur :: plain_lines_from "" s'
        end
      else plain_lines_from (String c cur) s'
  end.

Definition plain_lines (s : string) : list string := plain_lines_from "" s.

Definition commons : string := "commons.wikimedia.org".

Definition timestamps (text format : string) : result DateTime :=
  if String.eqb text "2008-05-05T10:00:00Z" then Ok 1209981600%Z
  else if String.eqb text "2010-01-01T00:00:00Z" then Ok 1262304000%Z
  else if String.eqb text "2012-03-04T05:06:07Z" then Ok 1330837567%Z
  else Raise ValueError.

Definition alice_global : GlobalUserInfo :=
  {| gui_home := Some "enwiki"; gui_editcount := Some 1000%Z;
     gui_merged :=
       Some [ {| acc_wiki := Some "enwiki";
                 acc_url := Some "http://en.wikipedia.org" |};
              {| acc_wiki := Some "commonswiki";
                 acc_url := Some "http://commons.wikimedia.org" |} ] |}.

Definition carol_global : GlobalUserInfo :=
  {| gui_home := Some "dewiki"; gui_editcount := Some 7%Z;
     gui_merged :=
       Some [ {| acc_wiki := Some "dewiki";
                 acc_url := Some "http://de.wikipedia.org" |} ] |}.

Definition unattached : GlobalUserInfo :=
  {| gui_home := None; gui_editcount := None; gui_merged := None |}.

Definition account (groups : list string) (count : Z)
           (contribs : list string) (g : GlobalUserInfo) : Query :=
  {| q_users := Some [ {| us_missing := false; us_invalid := false;
                          us_groups := Some groups;
                          us_editcount := Some count |} ];
     q_usercontribs :=
       Some (map (fun t => {| uc_timestamp := Some t |}) contribs);
     q_globaluserinfo := Some g;
     q_pages := None |}.

Definition alice_local : Query :=
  account ["sysop"] 42 ["2010-01-01T00:00:00Z"] alice_global.

Definition carol_local : Query :=
  account [] 3 ["2012-03-04T05:06:07Z"] carol_global.

Definition newbie_local : Query :=
  account [] 0 [] unattached.

Definition ghost_local : Query :=
  {| q_users := Some [ {| us_missing := true; us_invalid := false;
                          us_groups := None; us_editcount := None |} ];
     q_usercontribs := Some [];
     q_globaluserinfo := Some unattached;
     q_pages := None |}.

Definition section_text (text : string) : Query :=
  {| q_users := None; q_usercontribs := None; q_globaluserinfo := None;
     q_pages := Some [ {| pg_revisions := Some [ {| rv_content := Some text |} ] |} ] |}.

Definition newline : string := String "010" "".

Definition support_text : string :=
  "Some introduction" ++ newline
  ++ "#Support --[[User:Alice|Alice]] 01:02, 3 April 2024 (UTC)" ++ newline
  ++ "##reply by @[[User:Carol]]" ++ newline
  ++ "#Support, as well [[User:Bob]]" ++ newline
  ++ "#:indented".

Definition oppose_text : string :=
  "#Oppose [[User_talk:Carol|talk]]" ++ newline
  ++ "#Oppose [[User:Ghost]]".

Definition network (endpoint : string) (p : params) : result Response :=
  if String.eqb endpoint "http://commons.wikimedia.org/w/api.php" then
    match p with
    | LocalUserQuery name =>
        if String.eqb name "Alice" then Ok {| query := Some alice_local |}
        else if String.eqb name "Carol" then Ok {| query := Some carol_local |}
        else if String.eqb name "Newbie" then Ok {| query := Some newbie_local |}
        else if String.eqb name "Bob" then Raise TransportError
        else Ok {| query := Some ghost_local |}
    | SiteUserQuery name =>
        if String.eqb name "Alice"
        then Ok {| query := Some (account ["sysop"] 42 ["2010-01-01T00:00:00Z"] unattached) |}
        else Raise TransportError
    | RevisionQuery _ (Some "RFC") 1%Z =>
        Ok {| query := Some (section_text support_text) |}
    | RevisionQuery _ (Some "RFC") 2%Z =>
        Ok {| query := Some (section_text oppose_text) |}
    | RevisionQuery _ _ _ => Raise TransportError
    end
  else if String.eqb endpoint "http://en.wikipedia.org/w/api.php" then
    match p with
    | SiteUserQuery name =>
        if String.eqb name "Alice"
        then Ok {| query := Some (account ["rollbacker"] 958 ["2008-05-05T10:00:00Z"] unattached) |}
        else Raise TransportError
    | _ => Raise TransportError
    end
  else Raise TransportError.

(** The decoder on text without entities, no date in any line. *)
Definition env : Environment :=
  {| splitlines := plain_lines;
     unescape := fun s => s;
     strptime := timestamps;
     date_regexp_search := fun _ => None;
     date_format := "%H:%M, %d %B %Y (UTC)";
     request := network |}.

Definition api : Api.t := Api.from_domain commons.

(** [str] on an integer; the times of the small wiki are printed as their
    seconds. *)
Definition decimal (n : Z) : string := NilZero.string_of_int (Z.to_int n).

(** The script on the small wiki, with a standard output that refuses the
    names in [refused] and a file and an encoding that accept everything. *)
Definition script (refused : list string) : list (list string) * ending :=
  CsvVoteWriter.main env decimal (fun s => Ok s) decimal (Ok tt)
    (fun _ => Ok tt) (Ok tt)
    (fun _ name =>
       if existsb (String.eqb name) refused then Raise ValueError else Ok tt)
    commons (Some "RFC") None [("Oppose", 2%Z); ("Support", 1%Z)].

Definition vote_page : VotePage.t :=
  {| VotePage.api := api; VotePage.page := Some "RFC";
     VotePage.revision := None;
     VotePage.sections := VotePage.create_ordered_dict [("Oppose", 2%Z); ("Support", 1%Z)] |}.

(** The federated profile of Alice as [User.load_data] leaves it. *)
Definition alice_profile : GlobalUser.t :=
  {| GlobalUser.username := "Alice"; GlobalUser.home_wiki := Some "enwiki";
     GlobalUser.wikis := Attr (Some ["enwiki"; "commonswiki"]);
     GlobalUser.wiki_urls :=
       Attr (Some ["http://en.wikipedia.org"; "http://commons.wikimedia.org"]);
     GlobalUser.editcount := Some 1000%Z; GlobalUser.groups := None;
     GlobalUser.first_edit := None |}.

Definition alice : User.t :=
  {| User.api := api; User.username := "Alice";
     User.global_user := GObject alice_profile;
     User.editcount := Some 42%Z; User.groups := Some ["sysop"];
     User.first_edit := Some 1262304000%Z |}.

End Fixture.


(** ** Reference readings of the federation merge *)

(** The earlier of two optional times. *)
Definition opt_min (a b : option DateTime) : option DateTime :=
  match a, b with
  | Some x, Some y => Some (Z.min x y)
  | Some x, None => Some x
  | None, b => b
  end.

(** What the wiki at [url] reports about [username]: the groups held
    there and the time of the first contribution there, if there is one. *)
Definition site_reports (env : Environment) (username url : string)
           (report : list string * option DateTime) : Prop :=
  exists response q user others contribs,
    request env (url ++ "/w/api.php") (SiteUserQuery username) = Ok response
    /\ query response = Some q
    /\ q_users q = Some (user :: others)
    /\ us_groups user = Some (fst report)
    /\ q_usercontribs q = Some contribs
    /\ match contribs with
       | [] => snd report = None
       | c :: _ =>
           exists stamp d,
             uc_timestamp c = Some stamp
             /\ strptime env stamp "%Y-%m-%dT%H:%M:%SZ" = Ok d
             /\ snd report = Some d
       end.

(** The member accounts of a federation record include the anchor wiki. *)
Definition anchor_listed (global_data : GlobalUserInfo) : Prop :=
  exists accounts account,
    gui_merged global_data = Some accounts
    /\ In account accounts
    /\ acc_wiki account = Some "commonswiki".

(** The order of the registry. *)
Definition by_id (x y : string * Z) : Prop := (snd x <= snd y)%Z.

(** ** Reference readings of lines and names *)

(** The character [c] occurs in [s]. *)
Fixpoint occurs (c : ascii) (s : string) : bool :=
  match s with
  | EmptyString => false
  | String c' s' => Ascii.eqb c c' || occurs c s'
  end.

(** What the merge leaves alone. *)
Definition same_account (g g' : GlobalUser.t) : Prop :=
  GlobalUser.username g' = GlobalUser.username g
  /\ GlobalUser.home_wiki g' = GlobalUser.home_wiki g
  /\ GlobalUser.wikis g' = GlobalUser.wikis g
  /\ GlobalUser.wiki_urls g' = GlobalUser.wiki_urls g
  /\ GlobalUser.editcount g' = GlobalUser.editcount g.

(** The cell of the time of the vote, as [write] makes it. *)
Definition date_cell (isoformat : DateTime -> string) (d : option DateTime)
  : cell :=
  match d with
  | Some d => Text (isoformat d)
  | None => Text "-"
  end.

(** ** Reference reading of the order of the votes *)

Section TextOrder.
Variable env : Environment.
Variable self : VotePage.t.



End TextOrder.



(** ** Reference readings of the script *)

Section ScriptReadings.
Variable env : Environment.
Variable isoformat : DateTime -> string.
Variable encode : string -> result string.
Variable str_of_int : Z -> string.
Variable file_writerow : list string -> result unit.
Variable file_close : result unit.
Variable print_progress : Z -> string -> result unit.




End ScriptReadings.

(** * Properties *)

(** ** The matcher on the patterns of the program *)

Lemma rmatch_lit (A : Type) (p s : string) (g : option string)
      (k : string -> option string -> option A) :
  Re.rmatch (Re.lit p) s g k
  = match strip_prefix p s with
    | Some rest => k rest g
    | None => None
    end.
Proof.
  revert s; induction p as [|a p IH]; intros s; simpl.
  - reflexivity.
  - destruct s as [|b s]; [reflexivity|].
    destruct (Ascii.eqb a b); [apply IH | reflexivity].
Qed.

Lemma mem_bar_bracket (c : ascii) :
  Re.mem c ["|"; "]"]%char = (Ascii.eqb c "|" || Ascii.eqb c "]").
Proof. unfold Re.mem; simpl. now rewrite orb_false_r. Qed.

Lemma name_split (s : string) : s = name_of s ++ after_name s.
Proof.
  induction s as [|c s IH]; simpl; [reflexivity|].
  destruct (Ascii.eqb c "|" || Ascii.eqb c "]"); simpl; congruence.
Qed.

Lemma substring_head (a b : string) :
  substring 0 (String.length a) (a ++ b) = a.
Proof.
  induction a as [|c a IH]; simpl.
  - destruct b; reflexivity.
  - now rewrite IH.
Qed.

Lemma length_append (a b : string) :
  String.length (a ++ b) = String.length a + String.length b.
Proof. induction a as [|c a IH]; simpl; congruence. Qed.

Lemma consumed_name (s : string) : Re.consumed s (after_name s) = name_of s.
Proof.
  unfold Re.consumed.
  rewrite (name_split s) at 1 3.
  rewrite length_append, Nat.add_sub.
  apply substring_head.
Qed.

(** A run of name characters is taken whole when what follows the pattern
    cannot fail. *)
Lemma plus_not_in_name (A : Type) (s : string) (k : string -> option A) :
  (forall rest, k rest <> None) ->
  Re.plus_not_in ["|"; "]"]%char s k
  = match nonempty (name_of s) with
    | Some _ => k (after_name s)
    | None => None
    end.
Proof.
  intros Hk; induction s as [|c s IH]; cbn -[Re.mem]; [reflexivity|].
  rewrite mem_bar_bracket.
  destruct (Ascii.eqb c "|" || Ascii.eqb c "]") eqn:E; simpl; [reflexivity|].
  rewrite IH.
  destruct s as [|c' s]; simpl; [reflexivity|].
  destruct (Ascii.eqb c' "|" || Ascii.eqb c' "]") eqn:E'; simpl.
  - reflexivity.
  - destruct (k (after_name s)) eqn:K; [reflexivity|].
    exfalso; exact (Hk _ K).
Qed.

Lemma strip_prefix_app (p q s : string) :
  strip_prefix (p ++ q) s
  = match strip_prefix p s with
    | Some rest => strip_prefix q rest
    | None => None
    end.
Proof.
  revert s; induction p as [|a p IH]; intros s; simpl; [reflexivity|].
  destruct s as [|b s]; [reflexivity|].
  destruct (Ascii.eqb a b); [apply IH | reflexivity].
Qed.

(** The part of the pattern after the first character is a link to a user
    page or a user talk page with a name of one character at least. *)
Lemma rmatch_link (A : Type) (s : string) (g : option string)
      (k : string -> option string -> option A) :
  (forall rest g', k rest g' <> None) ->
  match link_name s with
  | Some name =>
      exists rest,
        Re.rmatch
          (Re.Seq (Re.lit "[[User")
             (Re.Seq (Re.Opt (Re.lit "_talk"))
                (Re.Seq (Re.Chr ":")
                   (Re.Group (Re.PlusNotIn ["|"; "]"]%char))))) s g k
        = k rest (Some name)
  | None =>
      Re.rmatch
        (Re.Seq (Re.lit "[[User")
           (Re.Seq (Re.Opt (Re.lit "_talk"))
              (Re.Seq (Re.Chr ":")
                 (Re.Group (Re.PlusNotIn ["|"; "]"]%char))))) s g k
      = None
  end.
Proof.
  intros Hk.
  unfold link_name.
  change "[[User:" with ("[[User" ++ ":").
  change "[[User_talk:" with ("[[User" ++ "_talk:").
  rewrite !strip_prefix_app.
  cbn [Re.rmatch]. rewrite rmatch_lit.
  destruct (strip_prefix "[[User" s) as [t|]; [|reflexivity].
  rewrite rmatch_lit.
  (* what the pattern does from a colon on *)
  assert (Colon : forall u,
    match u with
    | String c u' =>
        if Ascii.eqb ":" c
        then Re.plus_not_in ["|"; "]"]%char u'
               (fun s1 => k s1 (Some (Re.consumed u' s1)))
        else None
    | EmptyString => None
    end
    = match strip_prefix ":" u with
      | Some u' =>
          match nonempty (name_of u') with
          | Some name => k (after_name u') (Some name)
          | None => None
          end
      | None => None
      end).
  { intros [|c u']; cbn [strip_prefix]; [reflexivity|].
    destruct (Ascii.eqb ":" c); [|reflexivity].
    rewrite plus_not_in_name by (intros rest; apply Hk).
    rewrite consumed_name.
    destruct (name_of u'); reflexivity. }
  change "_talk:" with ("_talk" ++ ":"). rewrite strip_prefix_app.
  destruct t as [|c t']; [reflexivity|].
  destruct (Ascii.eqb ":" c) eqn:Ec.
  - (* a user page: no [_talk] here *)
    assert (Ht : strip_prefix "_talk" (String c t') = None)
      by (apply Ascii.eqb_eq in Ec; subst c; reflexivity).
    rewrite Ht.
    assert (Hc : strip_prefix ":" (String c t') = Some t')
      by (cbn [strip_prefix]; now rewrite Ec).
    rewrite Hc, plus_not_in_name by (intros rest; apply Hk).
    rewrite consumed_name.
    destruct (name_of t'); [reflexivity|eexists; reflexivity].
  - assert (Hc : strip_prefix ":" (String c t') = None)
      by (cbn [strip_prefix]; now rewrite Ec).
    rewrite Hc.
    destruct (strip_prefix "_talk" (String c t')) as [t2|].
    + rewrite Colon.
      destruct (strip_prefix ":" t2) as [u'|]; [|reflexivity].
      destruct (nonempty (name_of u')) as [name|]; [|reflexivity].
      destruct (k (after_name u') (Some name)) eqn:K.
      * exists (after_name u'). now rewrite K.
      * exfalso; exact (Hk _ _ K).
    + reflexivity.
Qed.

Lemma match_at_username (pos : nat) (s : string) :
  match signature_at s with
  | Some name =>
      exists group0,
        Re.match_at pos username_regexp s
        = Some (Re.mkMatch pos group0 (Some name))
  | None => Re.match_at pos username_regexp s = None
  end.
Proof.
  unfold Re.match_at, username_regexp, signature_at.
  destruct s as [|c s']; [reflexivity|].
  cbn [Re.rmatch].
  replace (Re.mem c ["@"%char]) with (Ascii.eqb c "@")
    by (unfold Re.mem; cbn [existsb]; now rewrite orb_false_r).
  destruct (Ascii.eqb c "@"); [reflexivity|].
  pose proof (@rmatch_link Re.Match s' None
    (fun rest g => Some (Re.mkMatch pos (Re.consumed (String c s') rest) g))) as L.
  cbn [Re.rmatch] in L.
  destruct (link_name s') as [name|].
  - destruct L as [rest L]; [discriminate|]. rewrite L. eexists; reflexivity.
  - apply L. discriminate.
Qed.

Lemma search_from_username (s : string) (pos : nat) :
  found (Re.search_from pos username_regexp s) = first_signature s.
Proof.
  revert pos; induction s as [|c s IH]; intros pos.
  - reflexivity.
  - cbn [Re.search_from first_signature].
    pose proof (match_at_username pos (String c s)) as M.
    cbn [signature_at] in M.
    destruct (Ascii.eqb c "@").
    + rewrite M. apply IH.
    + destruct (link_name s) as [name|].
      * destruct M as [group0 M]. rewrite M. reflexivity.
      * rewrite M. apply IH.
Qed.

Lemma search_from_username_start (s : string) (pos : nat) (m : Re.Match) :
  Re.search_from pos username_regexp s = Some m -> pos <= Re.start m.
Proof.
  revert pos; induction s as [|c s IH]; intros pos; cbn [Re.search_from];
    pose proof (match_at_username pos) as M.
  - specialize (M ""). cbn [signature_at] in M. rewrite M. discriminate.
  - specialize (M (String c s)).
    destruct (signature_at (String c s)) as [name|].
    + destruct M as [group0 M]. rewrite M.
      intros H; injection H as <-. apply Nat.le_refl.
    + rewrite M. intros H. apply IH in H. lia.
Qed.

Lemma search_from_cons (pos : nat) (r : Re.regex) (c : ascii) (s : string) :
  Re.search_from pos r (String c s)
  = match Re.match_at pos r (String c s) with
    | Some m => Some m
    | None => Re.search_from (S pos) r s
    end.
Proof. reflexivity. Qed.

Lemma parse_username_found (env : Environment) (line : string) :
  Vote.parse_username env line = option_map (unescape env) (first_signature line).
Proof.
  unfold Vote.parse_username, Re.search.
  rewrite <- (search_from_username line 0).
  destruct (Re.search_from 0 username_regexp line) as [m|]; [|reflexivity].
  simpl. destruct (Re.group1 m); reflexivity.
Qed.

Lemma first_unmentioned_link_after (c : ascii) (s : string) :
  first_unmentioned_link (Some c) s = first_signature (String c s).
Proof.
  revert c; induction s as [|c' s IH]; intros c;
    cbn [first_unmentioned_link first_signature].
  - destruct (Ascii.eqb c "@"); [reflexivity|].
    destruct (link_name ""); reflexivity.
  - rewrite IH.
    destruct (Ascii.eqb c "@"); [reflexivity|].
    destruct (link_name (String c' s)); reflexivity.
Qed.

Lemma match_vote_line (line : string) :
  is_some (Re.match_ vote_line_regexp line) = top_level_entry line.
Proof.
  unfold Re.match_, Re.match_at, vote_line_regexp, top_level_entry.
  destruct line as [|c1 [|c2 rest]]; cbn [Re.rmatch].
  - reflexivity.
  - destruct (Ascii.eqb "#" c1); reflexivity.
  - rewrite (Ascii.eqb_sym c1 "#").
    destruct (Ascii.eqb "#" c1); [|reflexivity].
    unfold Re.mem; cbn [existsb]. rewrite orb_false_r, orb_assoc.
    destruct (Ascii.eqb c2 "#" || Ascii.eqb c2 "*" || Ascii.eqb c2 ":");
      reflexivity.
Qed.

Lemma top_level_entry_iff (line : string) :
  top_level_entry line = true
  <-> exists c rest,
        line = String "#" (String c rest)
        /\ c <> "#"%char /\ c <> "*"%char /\ c <> ":"%char.
Proof.
  unfold top_level_entry. split.
  - destruct line as [|c1 [|c2 rest]]; try discriminate.
    intros H. apply andb_prop in H. destruct H as [H1 H2].
    apply Ascii.eqb_eq in H1. subst c1.
    apply negb_true_iff in H2.
    apply orb_false_elim in H2. destruct H2 as [H2 H3].
    apply orb_false_elim in H2. destruct H2 as [H2 H4].
    exists c2, rest. repeat split; try reflexivity;
      intros ->; discriminate.
  - intros (c & rest & -> & H1 & H2 & H3).
    apply Ascii.eqb_neq in H1, H2, H3.
    rewrite H1, H2, H3. reflexivity.
Qed.

(** ** The line filter *)

(** C6: the filter keeps, in their order and as they are, exactly the lines
    that begin with the list marker followed by a character that is none of
    the three excluded markers; the three lines of the specification and
    the empty sequence go as it says. *)
Theorem C6_filter_vote_lines (lines : list string) :
  filter_vote_lines lines = filter top_level_entry lines
  /\ (forall line,
        In line (filter_vote_lines lines)
        <-> In line lines
            /\ exists c rest,
                 line = String "#" (String c rest)
                 /\ c <> "#"%char /\ c <> "*"%char /\ c <> ":"%char)
  /\ filter_vote_lines ["#Support ~~~~"; "##reply"; "#:indented"]
     = ["#Support ~~~~"]
  /\ filter_vote_lines [] = [].
Proof.
  assert (E : filter_vote_lines lines = filter top_level_entry lines).
  { unfold filter_vote_lines. apply filter_ext. intros; apply match_vote_line. }
  split; [exact E|]. split; [|split; reflexivity].
  intros line. rewrite E, filter_In, top_level_entry_iff. reflexivity.
Qed.

(** ** The signature parser *)

(** C7, as the program has it: the name returned is that of the first link
    to a user page or user talk page that comes right after a character
    other than the mention marker, decoded; a link with no character before
    it is passed over like one after the marker.  On a candidate line, which
    begins with the list marker, this is the first link that does not come
    right after the mention marker.  The two lines of the specification go
    as it says, and a line without such a link gives nothing. *)
Theorem C7_parse_username (env : Environment) (line : string) :
  Vote.parse_username env line = extractIdentity_amended env line
  /\ (top_level_entry line = true ->
      Vote.parse_username env line = extractIdentity_as_claimed env line)
  /\ (first_signature line = None -> Vote.parse_username env line = None)
  /\ Vote.parse_username env "#See @[[User:Bob]]" = None
  /\ (unescape env "Alice" = "Alice" ->
      Vote.parse_username env
        "#Oppose --[[User:Alice|Alice]] 01:02, 3 April 2024 (UTC)"
      = Some "Alice").
Proof.
  split; [apply parse_username_found|].
  split.
  { intros H. rewrite parse_username_found.
    unfold extractIdentity_as_claimed. f_equal.
    apply top_level_entry_iff in H.
    destruct H as (c & rest & -> & _).
    cbn [first_unmentioned_link].
    change (link_name (String "#" (String c rest))) with (@None string).
    cbv beta iota. now rewrite first_unmentioned_link_after. }
  split.
  { intros H. rewrite parse_username_found, H. reflexivity. }
  split.
  { rewrite parse_username_found. reflexivity. }
  intros H. rewrite parse_username_found.
  change (first_signature
            "#Oppose --[[User:Alice|Alice]] 01:02, 3 April 2024 (UTC)")
    with (Some "Alice").
  simpl. now rewrite H.
Qed.

Lemma C7_parse_username_witness :
  Vote.parse_username Fixture.env
    "#Oppose --[[User:Alice|Alice]] 01:02, 3 April 2024 (UTC)"
  = Some "Alice".
Proof.
  exact (proj2 (proj2 (proj2 (proj2 (C7_parse_username Fixture.env ""))))
           eq_refl).
Defined.

(** C7, as it is stated, fails on a line that begins with the link: the
    link does not come after the mention marker, and nothing is returned. *)
Lemma C7_counterexample :
  extractIdentity_as_claimed Fixture.env "[[User:Alice]]" = Some "Alice"
  /\ Vote.parse_username Fixture.env "[[User:Alice]]" = None.
Proof. split; reflexivity. Qed.

Lemma link_at_start (line : string) :
  starts_with_link line = true ->
  exists rest, line = String "[" (String "[" (String "U" rest)).
Proof.
  unfold starts_with_link, link_name.
  change "[[User:" with ("[[U" ++ "ser:").
  change "[[User_talk:" with ("[[U" ++ "ser_talk:").
  rewrite !strip_prefix_app.
  destruct (strip_prefix "[[U" line) as [t|] eqn:E; [|discriminate].
  intros _. revert E.
  destruct line as [|c1 [|c2 [|c3 rest]]]; cbn [strip_prefix];
    try discriminate;
    try (destruct (Ascii.eqb "[" c1); discriminate).
  - destruct (Ascii.eqb "[" c1); [|discriminate].
    destruct (Ascii.eqb "[" c2); discriminate.
  - destruct (Ascii.eqb_spec "[" c1) as [<-|]; [|discriminate].
    destruct (Ascii.eqb_spec "[" c2) as [<-|]; [|discriminate].
    destruct (Ascii.eqb_spec "U" c3) as [<-|]; [|discriminate].
    intros _. exists rest. reflexivity.
Qed.

(** C10, as the program has it: on a line that begins with a link to a user
    page or user talk page, that link is never the one extracted, because a
    match takes a character before the link: a match, if there is one,
    begins after the first character, the result is that of the line
    without its first character, where only a later link can be found, and
    it is absent when there is no such later link. *)
Theorem C10_link_at_line_start (env : Environment) (line : string) :
  starts_with_link line = true ->
  (forall m, Re.search username_regexp line = Some m -> 1 <= Re.start m)
  /\ Vote.parse_username env line
     = extractIdentity_amended env (string_tail line)
  /\ (first_signature (string_tail line) = None ->
      Vote.parse_username env line = None).
Proof.
  intros H. apply link_at_start in H. destruct H as [rest ->].
  assert (S0 : signature_at (String "[" (String "[" (String "U" rest))) = None)
    by reflexivity.
  assert (F : first_signature (String "[" (String "[" (String "U" rest)))
              = first_signature (String "[" (String "U" rest)))
    by reflexivity.
  split; [|split].
  - intros m. unfold Re.search. rewrite search_from_cons.
    pose proof (match_at_username 0 (String "[" (String "[" (String "U" rest)))) as M.
    rewrite S0 in M. rewrite M.
    apply search_from_username_start.
  - rewrite parse_username_found, F. reflexivity.
  - intros N. rewrite parse_username_found, F.
    cbn [string_tail] in N. rewrite N. reflexivity.
Qed.

Lemma C10_link_at_line_start_witness :
  Vote.parse_username Fixture.env "[[User:Alice]]" = None.
Proof.
  exact (proj2 (proj2 (C10_link_at_line_start Fixture.env "[[User:Alice]]"
                         eq_refl)) eq_refl).
Defined.

(** C10, as it is stated, fails on a line that begins with a link and has a
    second one further on: the second is extracted. *)
Lemma C10_counterexample :
  starts_with_link "[[User:Alice]] and [[User:Bob]]" = true
  /\ Vote.parse_username Fixture.env "[[User:Alice]] and [[User:Bob]]"
     = Some "Bob".
Proof. split; reflexivity. Qed.

(** ** Identity resolution *)

(** A step of reading a computation that is known to return. *)
Ltac unfold_se :=
  unfold bind, lift, get, modify, ret, raise, rbind in *.

Ltac case_step H :=
  match type of H with
  | context [match ?x with _ => _ end] =>
      destruct x eqn:?; try discriminate H
  | context [if ?x then _ else _] =>
      destruct x eqn:?; try discriminate H
  end.

Lemma has_commonswiki_iff (accounts : list Account) (b : bool) :
  User.has_commonswiki accounts = Ok b ->
  (b = true <-> exists account,
                  In account accounts /\ acc_wiki account = Some "commonswiki").
Proof.
  revert b; induction accounts as [|a accounts IH]; intros b; cbn [User.has_commonswiki].
  - intros H; injection H as <-. split; [discriminate|].
    intros (account & [] & _).
  - unfold rbind, getitem.
    destruct (acc_wiki a) as [wiki|] eqn:W; [|discriminate].
    destruct (String.eqb_spec wiki "commonswiki") as [->|N].
    + intros H; injection H as <-. split; [|reflexivity].
      intros _. exists a. split; [now left | exact W].
    + intros H. rewrite (IH b H). split.
      * intros (account & I & Hw). exists account. split; [now right | exact Hw].
      * intros (account & [<-|I] & Hw).
        -- rewrite W in Hw. injection Hw as ->. now elim N.
        -- exists account. now split.
Qed.

Lemma data_is_global_iff (global_data : GlobalUserInfo) (b : bool) :
  User.data_is_global global_data = Ok b ->
  (b = true <-> anchor_listed global_data).
Proof.
  unfold User.data_is_global, anchor_listed.
  destruct (gui_merged global_data) as [accounts|].
  - intros H. rewrite (has_commonswiki_iff _ H). split.
    + intros (account & I & W). exists accounts, account. auto.
    + intros (accounts' & account & E & I & W). injection E as <-.
      exists account. auto.
  - intros H; injection H as <-. split; [discriminate|].
    intros (accounts & account & E & _). discriminate.
Qed.

Lemma getitem_ok (A : Type) (field : option A) (a : A) :
  getitem field = Ok a -> field = Some a.
Proof. destruct field; simpl; congruence. Qed.

Lemma index0_ok (A : Type) (l : list A) (a : A) :
  index0 l = Ok a -> exists rest, l = a :: rest.
Proof. destruct l; simpl; [discriminate|]. intros H; injection H as ->. eauto. Qed.

Ltac read_items :=
  repeat match goal with
    | H : getitem _ = Ok _ |- _ => apply getitem_ok in H
    | H : index0 _ = Ok _ |- _ => apply index0_ok in H; destruct H as [? H]
    | H : (_ || _)%bool = false |- _ => apply orb_false_elim in H; destruct H
    end.

(** What a call of [load_data] that returns has read and assigned. *)
Lemma load_data_returns (env : Environment) (data : option Query)
      (u u' : User.t) :
  User.load_data env data u = (u', Ok tt) ->
  exists q local others global_data local_groups count contrib contribs
         stamp first is_global,
    User.given_or_queried env u data = Ok q
    /\ q_users q = Some (local :: others)
    /\ q_globaluserinfo q = Some global_data
    /\ us_missing local = false /\ us_invalid local = false
    /\ us_groups local = Some local_groups
    /\ us_editcount local = Some count
    /\ q_usercontribs q = Some (contrib :: contribs)
    /\ uc_timestamp contrib = Some stamp
    /\ Api.timestamp_to_datetime env stamp = Ok first
    /\ User.data_is_global global_data = Ok is_global
    /\ User.api u' = User.api u
    /\ User.username u' = User.username u
    /\ User.groups u' = Some local_groups
    /\ User.editcount u' = Some count
    /\ User.first_edit u' = Some first
    /\ (if is_global
        then exists g,
               GlobalUser.from_globaluserinfo (User.username u) global_data = Ok g
               /\ User.global_user u' = GObject g
        else User.global_user u' = GFalse).
Proof.
  unfold User.load_data. unfold_se.
  intros H.
  repeat case_step H.
  all: injection H as <-.
  all: read_items; subst.
  all: do 11 eexists.
  all: repeat (split; [eassumption || reflexivity|]).
  all: cbn; eauto.
Qed.

(** C4: in a profile that [load_data] has resolved, the account is held as
    federated exactly when the anchor wiki is among the merged accounts of
    the federation record; without it the attribute is [False], whatever
    other wikis the record lists. *)
Theorem C4_federated_iff_anchor (env : Environment) (data : option Query)
        (u u' : User.t) :
  User.load_data env data u = (u', Ok tt) ->
  exists q global_data,
    User.given_or_queried env u data = Ok q
    /\ q_globaluserinfo q = Some global_data
    /\ ((exists g, User.global_user u' = GObject g)
        <-> anchor_listed global_data)
    /\ (~ anchor_listed global_data -> User.global_user u' = GFalse).
Proof.
  intros H. apply load_data_returns in H.
  destruct H as (q & local & others & gd & lg & count & contrib & contribs
                 & stamp & first & b & Hq & _ & Hg & _ & _ & _ & _ & _ & _ & _
                 & Hb & _ & _ & _ & _ & _ & Hu).
  exists q, gd. split; [exact Hq|]. split; [exact Hg|].
  pose proof (data_is_global_iff _ Hb) as I.
  destruct b.
  - destruct Hu as (g & _ & Hu). split.
    + split; [intros _; now apply I | intros _; eauto].
    + intros N. elim N. now apply I.
  - split.
    + split.
      * intros (g & Hg'). rewrite Hu in Hg'. discriminate.
      * intros A. apply I in A. discriminate.
    + intros _. exact Hu.
Qed.

Lemma C4_federated_iff_anchor_witness :
  exists q global_data,
    User.given_or_queried Fixture.env (User.init Fixture.api "Alice") None = Ok q
    /\ q_globaluserinfo q = Some global_data
    /\ ((exists g,
           User.global_user
             (fst (User.load_data Fixture.env None
                     (User.init Fixture.api "Alice"))) = GObject g)
        <-> anchor_listed global_data)
    /\ (~ anchor_listed global_data ->
        User.global_user
          (fst (User.load_data Fixture.env None
                  (User.init Fixture.api "Alice"))) = GFalse).
Proof.
  exact (C4_federated_iff_anchor Fixture.env None
           (User.init Fixture.api "Alice") eq_refl).
Defined.

(** A record that lists wikis, the anchor not among them: not federated. *)
Example carol_is_not_federated :
  User.load_data Fixture.env None (User.init Fixture.api "Carol")
  = ({| User.api := Fixture.api; User.username := "Carol";
        User.global_user := GFalse; User.editcount := Some 3%Z;
        User.groups := Some []; User.first_edit := Some 1330837567%Z |},
     Ok tt).
Proof. reflexivity. Qed.

(** C8, where the program departs from it: for an account that exists, is
    valid and has no contribution, [load_data] raises [IndexError] at
    [data['usercontribs'][0]], after it has assigned the groups and the
    edit count; no profile with an absent first edit comes out of it. *)
Theorem C8_no_contribution_raises (env : Environment) (data : option Query)
        (u : User.t) (q : Query) (local : UserInfo) (others : list UserInfo)
        (global_data : GlobalUserInfo) (local_groups : list string) (count : Z) :
  User.given_or_queried env u data = Ok q ->
  q_users q = Some (local :: others) ->
  q_globaluserinfo q = Some global_data ->
  us_missing local = false -> us_invalid local = false ->
  us_groups local = Some local_groups ->
  us_editcount local = Some count ->
  q_usercontribs q = Some [] ->
  User.load_data env data u
  = (User.set_editcount (Some count) (User.set_groups (Some local_groups) u),
     Raise IndexError).
Proof.
  intros Hq Hu Hg Hm Hi Hgr Hc Hn.
  unfold User.load_data. unfold_se.
  rewrite Hq, Hu. cbn [getitem index0]. rewrite Hg, Hm, Hi. cbn [orb].
  rewrite Hgr, Hc, Hn. reflexivity.
Qed.

Lemma C8_no_contribution_raises_witness :
  User.load_data Fixture.env None (User.init Fixture.api "Newbie")
  = (User.set_editcount (Some 0%Z)
       (User.set_groups (Some []) (User.init Fixture.api "Newbie")),
     Raise IndexError).
Proof.
  exact (@C8_no_contribution_raises Fixture.env None
           (User.init Fixture.api "Newbie") Fixture.newbie_local
           _ [] Fixture.unattached [] 0%Z
           eq_refl eq_refl eq_refl eq_refl eq_refl eq_refl eq_refl eq_refl).
Defined.

(** With a contribution, the first edit is the time of the first one the
    wiki lists, which it was asked to list oldest first. *)
Lemma first_edit_of_first_contribution (env : Environment)
      (data : option Query) (u u' : User.t) :
  User.load_data env data u = (u', Ok tt) ->
  exists q contrib contribs stamp first,
    User.given_or_queried env u data = Ok q
    /\ q_usercontribs q = Some (contrib :: contribs)
    /\ uc_timestamp contrib = Some stamp
    /\ Api.timestamp_to_datetime env stamp = Ok first
    /\ User.first_edit u' = Some first.
Proof.
  intros H. apply load_data_returns in H.
  destruct H as (q & local & others & gd & lg & count & contrib & contribs
                 & stamp & first & b & Hq & _ & _ & _ & _ & _ & _ & Hc & Hs
                 & Hf & _ & _ & _ & _ & _ & Hfe & _).
  exists q, contrib, contribs, stamp, first. auto.
Qed.

(** ** The federation merge *)

Lemma earlier_opt_min (d : DateTime) (cur : option DateTime) :
  (if GlobalUser.earlier d cur then Some d else cur) = opt_min cur (Some d).
Proof.
  destruct cur as [x|]; cbn; [|reflexivity].
  destruct (Z.ltb_spec d x); f_equal; lia.
Qed.

Lemma opt_min_assoc (a b c : option DateTime) :
  opt_min (opt_min a b) c = opt_min a (opt_min b c).
Proof.
  destruct a, b, c; cbn; try reflexivity. f_equal. lia.
Qed.

Lemma earliest_cons (r : option DateTime) (reports : list (option DateTime)) :
  earliest (r :: reports) = opt_min r (earliest reports).
Proof.
  destruct r as [d|]; cbn; [|reflexivity].
  destruct (earliest reports); reflexivity.
Qed.

(** One turn of the loop, on a wiki that answers. *)
Lemma load_site_reports (env : Environment) (url : string) (g : GlobalUser.t)
      (acc : list string) (report : list string * option DateTime) :
  site_reports env (GlobalUser.username g) url report ->
  GlobalUser.groups g = Some acc ->
  exists g',
    GlobalUser.load_site env url g = (g', Ok tt)
    /\ GlobalUser.username g' = GlobalUser.username g
    /\ GlobalUser.groups g' = Some (acc ++ fst report)%list
    /\ GlobalUser.first_edit g' = opt_min (GlobalUser.first_edit g) (snd report).
Proof.
  intros (response & q & user & others & contribs & Hr & Hq & Hu & Hg & Hc & Ht)
         Hacc.
  unfold GlobalUser.load_site, Api.call, Api.from_globaluserinfo_url.
  unfold_se. unfold getitem, index0. cbn [Api.endpoint].
  rewrite Hr, Hq, Hacc, Hu, Hg, Hc.
  destruct contribs as [|c contribs].
  - eexists. split; [reflexivity|]. cbn. rewrite Ht.
    destruct (GlobalUser.first_edit g); auto.
  - destruct Ht as (stamp & d & Hs & Hd & Ht).
    rewrite Hs. unfold Api.timestamp_to_datetime. rewrite Hd.
    cbn [GlobalUser.first_edit GlobalUser.set_groups].
    pose proof (earlier_opt_min d (GlobalUser.first_edit g)) as E.
    destruct (GlobalUser.earlier d (GlobalUser.first_edit g));
      (eexists; split; [reflexivity|]); cbn; rewrite Ht; auto.
Qed.

Lemma load_sites_reports (env : Environment) (urls : list string)
      (reports : list (list string * option DateTime)) :
  forall (g : GlobalUser.t) (acc : list string),
    Forall2 (site_reports env (GlobalUser.username g)) urls reports ->
    GlobalUser.groups g = Some acc ->
    exists g',
      GlobalUser.load_sites env urls g = (g', Ok tt)
      /\ GlobalUser.groups g' = Some (acc ++ concat (map fst reports))%list
      /\ GlobalUser.first_edit g'
         = opt_min (GlobalUser.first_edit g) (earliest (map snd reports)).
Proof.
  revert reports; induction urls as [|url urls IH]; intros reports g acc F Hacc;
    inversion F as [|? report ? reports' Hsite F']; subst.
  - exists g. split; [reflexivity|]. cbn. rewrite app_nil_r.
    destruct (GlobalUser.first_edit g); auto.
  - destruct (load_site_reports g Hsite Hacc) as (g1 & L & Hn & Hg1 & Hf1).
    rewrite <- Hn in F'.
    destruct (IH reports' g1 _ F' Hg1) as (g' & L' & Hg' & Hf').
    exists g'. split.
    + cbn [GlobalUser.load_sites]. unfold bind. rewrite L. exact L'.
    + split.
      * rewrite Hg'. cbn [map concat]. now rewrite app_assoc.
      * rewrite Hf', Hf1. cbn [map]. rewrite earliest_cons.
        apply opt_min_assoc.
Qed.




(** ** Extraction *)

Lemma votes_app (a b : list event) : votes (a ++ b) = (votes a ++ votes b)%list.
Proof.
  induction a as [|[id|vote] a IH]; cbn; [reflexivity|exact IH|now rewrite IH].
Qed.

Lemma fetched_app (a b : list event) :
  fetched (a ++ b) = (fetched a ++ fetched b)%list.
Proof.
  induction a as [|[id|vote] a IH]; cbn; [reflexivity|now rewrite IH|exact IH].
Qed.

Section ExtractionProperties.
Variable env : Environment.
Variable self : VotePage.t.

Lemma built_app (l1 l2 : list (string * string)) :
  built env self (l1 ++ l2) = (built env self l1 ++ built env self l2)%list.
Proof.
  induction l1 as [|[label line] l1 IH]; cbn [built app]; [reflexivity|].
  destruct (Vote.from_line env (VotePage.api self) line label);
    cbn; now rewrite IH.
Qed.

Lemma votes_yielded (label line : string) :
  votes (yielded env self label line) = built env self [(label, line)].
Proof.
  unfold yielded. cbn [built].
  destruct (Vote.from_line env (VotePage.api self) line label); reflexivity.
Qed.

Lemma fetched_yielded (label line : string) : fetched (yielded env self label line) = [].
Proof.
  unfold yielded.
  destruct (Vote.from_line env (VotePage.api self) line label); reflexivity.
Qed.

Lemma votes_of_lines_cons (label : string) (limit : option Z) (line : string)
      (lines : list string) (i : Z) :
  VotePage.votes_of_lines env self label limit (line :: lines) i
  = if VotePage.reached (i + 1) limit
    then (yielded env self label line, (i + 1)%Z, true)
    else
      let r := VotePage.votes_of_lines env self label limit lines (i + 1) in
      ((yielded env self label line ++ fst (fst r))%list, snd (fst r), snd r).
Proof.
  cbn [VotePage.votes_of_lines]. unfold yielded.
  destruct (VotePage.reached (i + 1) limit); [reflexivity|].
  destruct (VotePage.votes_of_lines env self label limit lines (i + 1))
    as [[events i'] returned].
  reflexivity.
Qed.

Lemma built_cons (x : string * string) (l : list (string * string)) :
  built env self (x :: l) = (built env self [x] ++ built env self l)%list.
Proof. exact (built_app [x] l). Qed.

(** Whatever the limit, the votes of a section are those built from the
    lines read, which are the first ones, and all of them unless the loop
    returned. *)
Lemma votes_of_lines_prefix (label : string) (limit : option Z)
      (lines : list string) :
  forall i,
    let r := VotePage.votes_of_lines env self label limit lines i in
    fetched (fst (fst r)) = []
    /\ exists K,
         K <= length lines
         /\ votes (fst (fst r))
            = built env self (firstn K (map (pair label) lines))
         /\ (snd r = false -> K = length lines).
Proof.
  induction lines as [|line lines IH]; intros i.
  - cbn. split; [reflexivity|]. exists 0. auto.
  - cbv zeta. rewrite votes_of_lines_cons.
    destruct (VotePage.reached (i + 1) limit).
    + cbn [fst snd]. split; [apply fetched_yielded|].
      exists 1. split; [cbn; lia|]. split; [|discriminate].
      cbn [map firstn]. apply votes_yielded.
    + cbv zeta. cbn [fst snd].
      destruct (IH (i + 1)%Z) as (F & K & HK & V & R).
      split; [rewrite fetched_app, fetched_yielded, F; reflexivity|].
      exists (S K). split; [cbn; lia|]. split.
      * rewrite votes_app, votes_yielded, V. cbn [map firstn].
        symmetry. apply built_cons.
      * intros E. cbn. now rewrite (R E).
Qed.

(** With a limit that lies ahead of the counter, the lines read are the
    first ones up to the limit. *)
Lemma votes_of_lines_limit (label : string) (n : Z) (lines : list string) :
  forall i,
    (0 <= i < n)%Z ->
    let r := VotePage.votes_of_lines env self label (Some n) lines i in
    let k := Z.to_nat (n - i) in
    votes (fst (fst r)) = built env self (firstn k (map (pair label) lines))
    /\ snd r = Nat.leb k (length lines)
    /\ (snd r = false -> snd (fst r) = (i + Z.of_nat (length lines))%Z).
Proof.
  induction lines as [|line lines IH]; intros i Hi; cbv zeta.
  - cbn [VotePage.votes_of_lines fst snd map length]. rewrite firstn_nil.
    split; [reflexivity|]. split; [|intros _; lia].
    symmetry. apply Nat.leb_gt. lia.
  - rewrite votes_of_lines_cons. cbn [VotePage.reached].
    destruct (Z.eqb_spec (i + 1) n) as [E|N].
    + cbn [fst snd]. replace (Z.to_nat (n - i)) with 1 by lia.
      split; [apply votes_yielded|]. split; [reflexivity|discriminate].
    + cbv zeta. cbn [fst snd].
      destruct (IH (i + 1)%Z ltac:(lia)) as (V & R & I).
      replace (Z.to_nat (n - i)) with (S (Z.to_nat (n - (i + 1)))) by lia.
      split; [|split].
      * rewrite votes_app, votes_yielded, V. cbn [map firstn].
        symmetry. apply built_cons.
      * rewrite R. reflexivity.
      * intros E. rewrite (I E). cbn [length]. lia.
Qed.

Lemma votes_of_sections_cons (section : section_arg) (limit : option Z)
      (label : string) (id : Z) (items : list (string * Z)) (i : Z) :
  VotePage.votes_of_sections env self section limit ((label, id) :: items) i
  = if VotePage.skips section label id
    then VotePage.votes_of_sections env self section limit items i
    else
      match VotePage.get_vote_lines env self id with
      | Raise e => ([GetSectionText id], Raised e)
      | Ok lines =>
          let r := VotePage.votes_of_lines env self label limit lines i in
          if snd r
          then (GetSectionText id :: fst (fst r), Exhausted)
          else
            let r' :=
              VotePage.votes_of_sections env self section limit items
                (snd (fst r)) in
            ((GetSectionText id :: fst (fst r) ++ fst r')%list, snd r')
      end.
Proof.
  cbn [VotePage.votes_of_sections].
  destruct (VotePage.skips section label id); [reflexivity|].
  destruct (VotePage.get_vote_lines env self id) as [lines|e]; [|reflexivity].
  destruct (VotePage.votes_of_lines env self label limit lines i)
    as [[events i'] returned].
  cbn [fst snd]. destruct returned; [reflexivity|].
  destruct (VotePage.votes_of_sections env self section limit items i')
    as [events' e].
  reflexivity.
Qed.

(** Whatever the limit, the votes are built from the first candidate lines,
    in the order of the registry and then of the text. *)
Lemma votes_of_sections_prefix (limit : option Z) (items : list (string * Z)) :
  forall i,
    exists K,
      votes (fst (VotePage.votes_of_sections env self AnySection limit items i))
      = built env self (firstn K (candidate_lines env self items)).
Proof.
  induction items as [|[label id] items IH]; intros i.
  - exists 0. reflexivity.
  - rewrite votes_of_sections_cons. cbn [VotePage.skips candidate_lines].
    destruct (VotePage.get_vote_lines env self id) as [lines|e].
    + cbv zeta.
      destruct (votes_of_lines_prefix label limit lines i)
        as (_ & K & HK & V & R).
      destruct (snd (VotePage.votes_of_lines env self label limit lines i)).
      * exists K. cbn [fst votes]. rewrite V, firstn_app.
        replace (K - length (map (pair label) lines)) with 0
          by (rewrite length_map; lia).
        cbn [firstn]. now rewrite app_nil_r.
      * destruct (IH (snd (fst (VotePage.votes_of_lines env self label limit
                                  lines i)))) as [K' V'].
        exists (length (map (pair label) lines) + K').
        cbn [fst votes]. rewrite votes_app, V, V', (R eq_refl).
        rewrite firstn_app_2, built_app.
        rewrite <- (length_map (pair label) lines), firstn_all. reflexivity.
    + exists 0. reflexivity.
Qed.



End ExtractionProperties.

Section LimitProperties.
Variable env : Environment.
Variable self : VotePage.t.

Lemma built_length (l : list (string * string)) :
  Forall (builds env self) l -> length (built env self l) = length l.
Proof.
  induction 1 as [|[label line] l [vote B] _ IH]; cbn [built]; [reflexivity|].
  cbn [fst snd] in B. rewrite B. cbn. now rewrite IH.
Qed.

Lemma votes_of_sections_limit (n : Z) (items : list (string * Z)) :
  forall i,
    (0 <= i < n)%Z ->
    readable env self items ->
    let r := VotePage.votes_of_sections env self AnySection (Some n) items i in
    let k := Z.to_nat (n - i) in
    snd r = Exhausted
    /\ votes (fst r) = built env self (firstn k (candidate_lines env self items))
    /\ exists K,
         K <= length items
         /\ fetched (fst r) = map snd (firstn K items)
         /\ length (candidate_lines env self (firstn (K - 1) items)) < k
         /\ (K < length items ->
             k <= length (candidate_lines env self (firstn K items))).
Proof.
  induction items as [|[label id] items IH]; intros i Hi Hr; cbv zeta.
  - cbn. split; [reflexivity|]. split; [now rewrite firstn_nil|].
    exists 0. cbn. repeat split; lia.
  - destruct (Hr label id (or_introl eq_refl)) as [lines Hl].
    assert (Hr' : readable env self items)
      by (intros l' id' I; apply (Hr l' id'); now right).
    rewrite votes_of_sections_cons. cbn [VotePage.skips candidate_lines].
    rewrite Hl. cbv zeta.
    destruct (votes_of_lines_limit env self label lines Hi) as (V & R & I).
    destruct (votes_of_lines_prefix env self label (Some n) lines i)
      as (F & _).
    set (k := Z.to_nat (n - i)) in *.
    assert (Hk : 1 <= k) by (unfold k; lia).
    assert (Hlen : length (map (pair label) lines) = length lines)
      by apply length_map.
    rewrite R. destruct (Nat.leb_spec k (length lines)) as [Le|Gt].
    + cbn [fst snd votes fetched]. split; [reflexivity|]. split.
      * rewrite V, firstn_app.
        replace (k - length (map (pair label) lines)) with 0 by lia.
        cbn [firstn]. now rewrite app_nil_r.
      * exists 1. rewrite F. cbn [length firstn map snd Nat.sub candidate_lines].
        rewrite Hl, app_nil_r, Hlen.
        repeat split; try reflexivity; cbn; lia.
    + specialize (I R). rewrite I.
      assert (Hi' : (0 <= i + Z.of_nat (length lines) < n)%Z)
        by (unfold k in Gt; lia).
      destruct (IH _ Hi' Hr') as (E & V' & K & HK & F' & C1 & C2).
      replace (Z.to_nat (n - (i + Z.of_nat (length lines))))
        with (k - length lines) in * by (unfold k; lia).
      cbn [fst snd votes fetched]. split; [exact E|]. split.
      * rewrite votes_app, V, V', firstn_app, built_app, Hlen.
        rewrite (firstn_all2 (n := k)) by lia. reflexivity.
      * exists (S K). rewrite fetched_app, F, F'.
        cbn [length firstn map snd app].
        replace (S K - 1) with K by lia.
        split; [lia|]. split; [reflexivity|]. split.
        -- destruct K as [|K]; [cbn; lia|].
           cbn [firstn candidate_lines]. rewrite Hl, length_app, Hlen.
           replace (S K - 1) with K in C1 by lia. lia.
        -- intros HK'. cbn [candidate_lines]. rewrite Hl, length_app, Hlen.
           assert (K < length items) by lia. specialize (C2 H). lia.
Qed.

End LimitProperties.

(** C3, as the program has it: with a limit [N] of one at least, and every
    section readable, extraction reads the first [min N total] candidate
    lines and yields a vote for each of them whose building does not raise:
    exactly [min N total] votes when none raises.  It ends without an
    exception, and it asks for the text of the first [K] sections only,
    where fewer than [N] candidate lines lie before the last of them and,
    unless they are all the sections, [N] at least lie in them. *)
Theorem C3_limit (env : Environment) (self : VotePage.t) (N : nat) :
  1 <= N ->
  readable env self (VotePage.sections self) ->
  let r := VotePage.get_votes env self AnySection (Some (Z.of_nat N)) in
  let all := candidate_lines env self (VotePage.sections self) in
  snd r = Exhausted
  /\ votes (fst r) = built env self (firstn N all)
  /\ (Forall (builds env self) (firstn N all) ->
      length (votes (fst r)) = Nat.min N (length all))
  /\ exists K,
       K <= length (VotePage.sections self)
       /\ fetched (fst r) = map snd (firstn K (VotePage.sections self))
       /\ length (candidate_lines env self
                    (firstn (K - 1) (VotePage.sections self))) < N
       /\ (K < length (VotePage.sections self) ->
           N <= length (candidate_lines env self
                          (firstn K (VotePage.sections self)))).
Proof.
  intros HN Hr. cbv zeta. unfold VotePage.get_votes.
  assert (Hi : (0 <= 0 < Z.of_nat N)%Z) by lia.
  destruct (votes_of_sections_limit Hi Hr) as (E & V & K & HK & F & C1 & C2).
  replace (Z.to_nat (Z.of_nat N - 0)) with N in * by lia.
  split; [exact E|]. split; [exact V|]. split.
  - intros B. rewrite V, (built_length B). apply length_firstn.
  - exists K. auto.
Qed.

Lemma C3_limit_witness :
  snd (VotePage.get_votes Fixture.env Fixture.vote_page AnySection (Some 2%Z))
  = Exhausted
  /\ fetched (fst (VotePage.get_votes Fixture.env Fixture.vote_page AnySection
                     (Some 2%Z)))
     = [1%Z].
Proof.
  assert (R : readable Fixture.env Fixture.vote_page
                (VotePage.sections Fixture.vote_page)).
  { intros label id [E|[E|[]]]; injection E as <- <-; eexists; reflexivity. }
  destruct (@C3_limit Fixture.env Fixture.vote_page 2 (le_S 1 1 (le_n 1)) R)
    as (E & _).
  split; [exact E | reflexivity].
Defined.

(** C3, as it is stated, fails for a limit of zero, which the counter never
    equals: every vote is yielded.  It fails too when the building of a
    vote raises within the limit: the line counts and yields nothing. *)
Lemma C3_counterexample :
  length (candidate_lines Fixture.env Fixture.vote_page
            (VotePage.sections Fixture.vote_page)) = 4
  /\ length (votes (fst (VotePage.get_votes Fixture.env Fixture.vote_page
                           AnySection (Some 0%Z)))) = 3
  /\ length (votes (fst (VotePage.get_votes Fixture.env Fixture.vote_page
                           AnySection (Some 2%Z)))) = 1.
Proof. repeat split; reflexivity. Qed.

(** ** The registry *)

Lemma insert_by_id_perm (x : string * Z) (l : list (string * Z)) :
  Permutation (x :: l) (VotePage.insert_by_id x l).
Proof.
  induction l as [|y l IH]; cbn [VotePage.insert_by_id]; [reflexivity|].
  destruct (snd x <=? snd y)%Z; [reflexivity|].
  rewrite perm_swap. now apply perm_skip.
Qed.

Lemma insert_by_id_sorted (x : string * Z) (l : list (string * Z)) :
  Sorted by_id l -> Sorted by_id (VotePage.insert_by_id x l).
Proof.
  induction 1 as [|y l S IH H]; cbn [VotePage.insert_by_id].
  - repeat constructor.
  - destruct (Z.leb_spec (snd x) (snd y)) as [Le|Gt].
    + constructor; [now constructor|]. constructor. exact Le.
    + constructor; [exact IH|].
      destruct l as [|z l]; cbn [VotePage.insert_by_id].
      * constructor. unfold by_id. lia.
      * destruct (snd x <=? snd z)%Z; constructor; unfold by_id.
        -- lia.
        -- inversion H; assumption.
Qed.

Lemma create_ordered_dict_sorted (sections : list (string * Z)) :
  Sorted by_id (VotePage.create_ordered_dict sections)
  /\ Permutation sections (VotePage.create_ordered_dict sections).
Proof.
  unfold VotePage.create_ordered_dict.
  induction sections as [|x l [S P]]; cbn [VotePage.sorted_by_id].
  - split; constructor.
  - split; [now apply insert_by_id_sorted|].
    rewrite <- insert_by_id_perm. now apply perm_skip.
Qed.








(** The registry of the small wiki: configured with the later section
    first, read in the order of the section ids. *)
Example fixture_votes_in_registry_order :
  VotePage.sections Fixture.vote_page = [("Support", 1%Z); ("Oppose", 2%Z)]
  /\ map Vote.section_label
       (votes (fst (VotePage.get_votes Fixture.env Fixture.vote_page
                      AnySection None)))
     = [Some "Support"; Some "Oppose"; Some "Oppose"].
Proof. split; reflexivity. Qed.

(** ** Failures of identity resolution *)

(** C1, as the program has it: when the lookup of the author of a candidate
    line raises, the line yields a vote, with its text, label and time and
    without an author, if the exception is that of an unknown account; for
    any other exception the line yields nothing.  Either way the exception
    goes no further, the line has counted towards the limit, and the lines
    after it are read as they would have been. *)
Theorem C1_resolution_failure (env : Environment) (self : VotePage.t)
        (label : string) (limit : option Z) (line : string)
        (lines : list string) (i : Z) (d : option DateTime)
        (username : string) (u : User.t) (e : exn) :
  Vote.parse_datetime env line = Ok d ->
  Vote.parse_username env line = Some username ->
  truthy_str (Some username) = true ->
  User.load_data env None (User.init (VotePage.api self) username)
  = (u, Raise e) ->
  votes (fst (fst (VotePage.votes_of_lines env self label limit
                     (line :: lines) i)))
  = (match e with
     | NoSuchUserException _ =>
         [ {| Vote.section_label := Some label; Vote.text := Some line;
              Vote.user := UNone; Vote.datetime := d;
              Vote.local_gap := None; Vote.global_gap := None |} ]
     | _ => []
     end
     ++ if VotePage.reached (i + 1) limit then []
        else votes (fst (fst (VotePage.votes_of_lines env self label limit
                                lines (i + 1)))))%list.
Proof.
  intros Hd Hu Ht Hl.
  rewrite votes_of_lines_cons.
  assert (Y : votes (yielded env self label line)
              = match e with
                | NoSuchUserException _ =>
                    [ {| Vote.section_label := Some label;
                         Vote.text := Some line;
                         Vote.user := UNone; Vote.datetime := d;
                         Vote.local_gap := None; Vote.global_gap := None |} ]
                | _ => []
                end).
  { unfold yielded, Vote.from_line, rbind. rewrite Hd, Hu, Ht, Hl.
    destruct e; reflexivity. }
  destruct (VotePage.reached (i + 1) limit); cbv zeta; cbn [fst snd].
  - now rewrite Y, app_nil_r.
  - now rewrite votes_app, Y.
Qed.

Lemma C1_resolution_failure_witness :
  votes (fst (fst (VotePage.votes_of_lines Fixture.env Fixture.vote_page
                     "Support" None
                     ["#Support, as well [[User:Bob]]"; "#Oppose [[User:Ghost]]"]
                     0%Z)))
  = ([] ++ votes (fst (fst (VotePage.votes_of_lines Fixture.env
                              Fixture.vote_page "Support" None
                              ["#Oppose [[User:Ghost]]"] (0 + 1)%Z))))%list.
Proof.
  exact (@C1_resolution_failure Fixture.env Fixture.vote_page "Support" None
           "#Support, as well [[User:Bob]]" ["#Oppose [[User:Ghost]]"] 0%Z
           None "Bob" (User.init Fixture.api "Bob") TransportError
           eq_refl eq_refl eq_refl eq_refl).
Defined.

(** C1, as it is stated, fails when the lookup fails in transport: the
    second candidate line of the first section is signed by Bob, whose
    lookup raises, and no vote carries its text. *)
Lemma C1_counterexample :
  map snd (candidate_lines Fixture.env Fixture.vote_page
             (VotePage.sections Fixture.vote_page))
  = ["#Support --[[User:Alice|Alice]] 01:02, 3 April 2024 (UTC)";
     "#Support, as well [[User:Bob]]";
     "#Oppose [[User_talk:Carol|talk]]";
     "#Oppose [[User:Ghost]]"]
  /\ snd (User.load_data Fixture.env None (User.init Fixture.api "Bob"))
     = Raise TransportError
  /\ map Vote.text
       (votes (fst (VotePage.get_votes Fixture.env Fixture.vote_page
                      AnySection None)))
     = [Some "#Support --[[User:Alice|Alice]] 01:02, 3 April 2024 (UTC)";
        Some "#Oppose [[User_talk:Carol|talk]]";
        Some "#Oppose [[User:Ghost]]"].
Proof. repeat split; reflexivity. Qed.

(** ** Serialization *)

Lemma from_globaluserinfo_attributes (username : string)
      (global_data : GlobalUserInfo) (g : GlobalUser.t) :
  GlobalUser.from_globaluserinfo username global_data = Ok g ->
  exists wikis urls,
    GlobalUser.wikis g = Attr wikis /\ GlobalUser.wiki_urls g = Attr urls.
Proof.
  unfold GlobalUser.from_globaluserinfo, rbind. intros H.
  repeat case_step H. injection H as <-. cbn. eauto.
Qed.

Lemma global_to_dict_deletes (g : GlobalUser.t) wikis urls :
  GlobalUser.wikis g = Attr wikis ->
  GlobalUser.wiki_urls g = Attr urls ->
  GlobalUser.to_dict g
  = (GlobalUser.set_wiki_urls Deleted (GlobalUser.set_wikis Deleted g), Ok tt).
Proof.
  intros W U. unfold GlobalUser.to_dict. unfold_se.
  rewrite W. cbn. rewrite U. reflexivity.
Qed.

(** A vote that [from_line] has given an author holds a [User] whose
    federated profile, if it has one, has all its attributes. *)
Lemma from_line_author (env : Environment) (api : Api.t) (line label : string)
      (vote : Vote.t) (u : User.t) :
  Vote.from_line env api line label = Ok vote ->
  Vote.user vote = UObject u ->
  User.global_user u = GFalse
  \/ exists g wikis urls,
       User.global_user u = GObject g
       /\ GlobalUser.wikis g = Attr wikis
       /\ GlobalUser.wiki_urls g = Attr urls.
Proof.
  unfold Vote.from_line, rbind. intros H Hu.
  repeat case_step H; injection H as <-; cbn in Hu; try discriminate.
  injection Hu as ->.
  match goal with
  | L : User.load_data _ _ _ = (u, Ok ?x) |- _ =>
      destruct x; apply load_data_returns in L;
      destruct L as (q & local & others & gd & lg & count & contrib
                     & contribs & stamp & first & b & _ & _ & _ & _ & _ & _
                     & _ & _ & _ & _ & _ & _ & _ & _ & _ & _ & G)
  end.
  destruct b.
  - destruct G as (g & F & G). right.
    destruct (from_globaluserinfo_attributes _ _ F) as (ws & us & W & R).
    exists g, ws, us. auto.
  - now left.
Qed.

(** C9, where the program departs from it: [to_dict] works on the
    dictionary of the vote itself, so for every vote that [from_line] has
    given an author it replaces the [User] held in [user] by a dictionary,
    from which the member wikis of a federated profile have been deleted;
    the vote is no longer what [from_line] returned, and a second [to_dict]
    (or [str]) on it raises [AttributeError]. *)
Theorem C9_to_dict_replaces_user (env : Environment) (api : Api.t)
        (line label : string) (vote : Vote.t) (u : User.t) :
  Vote.from_line env api line label = Ok vote ->
  Vote.user vote = UObject u ->
  exists u',
    Vote.to_dict vote = (Vote.set_user (UDict u') vote, Ok tt)
    /\ Vote.user (fst (Vote.to_dict vote)) <> Vote.user vote
    /\ Vote.str (fst (Vote.to_dict vote))
       = (fst (Vote.to_dict vote), Raise AttributeError)
    /\ (forall g,
          User.global_user u = GObject g ->
          exists g',
            User.global_user u' = GDict g'
            /\ GlobalUser.wikis g' = Deleted
            /\ GlobalUser.wiki_urls g' = Deleted).
Proof.
  intros H Hu.
  destruct (from_line_author _ _ _ _ H Hu) as [G|(g & w & r & G & W & R)].
  - exists u. unfold Vote.str, Vote.to_dict, User.to_dict. unfold_se.
    rewrite Hu, G. cbn.
    repeat split; try discriminate.
  - exists (User.set_global_user
              (GDict (GlobalUser.set_wiki_urls Deleted
                        (GlobalUser.set_wikis Deleted g))) u).
    unfold Vote.str, Vote.to_dict, User.to_dict. unfold_se.
    rewrite Hu, G, (global_to_dict_deletes g W R). cbn.
    repeat split; try discriminate.
    intros g0 E. injection E as <-. eexists. repeat split.
Qed.

Lemma C9_to_dict_replaces_user_witness :
  exists u',
    Vote.to_dict
      {| Vote.section_label := Some "Support";
         Vote.text :=
           Some "#Support --[[User:Alice|Alice]] 01:02, 3 April 2024 (UTC)";
         Vote.user := UObject Fixture.alice; Vote.datetime := None;
         Vote.local_gap := None; Vote.global_gap := None |}
    = (Vote.set_user (UDict u')
         {| Vote.section_label := Some "Support";
            Vote.text :=
              Some "#Support --[[User:Alice|Alice]] 01:02, 3 April 2024 (UTC)";
            Vote.user := UObject Fixture.alice; Vote.datetime := None;
            Vote.local_gap := None; Vote.global_gap := None |},
       Ok tt)
    /\ User.global_user u'
       = GDict (GlobalUser.set_wiki_urls Deleted
                  (GlobalUser.set_wikis Deleted Fixture.alice_profile)).
Proof.
  destruct (@C9_to_dict_replaces_user Fixture.env Fixture.api
              "#Support --[[User:Alice|Alice]] 01:02, 3 April 2024 (UTC)"
              "Support" _ Fixture.alice eq_refl eq_refl)
    as (u' & E & _).
  exists u'. split; [exact E|].
  cbv in E. injection E as <-. reflexivity.
Defined.

(** * Further properties of the program *)

(** ** Chunks *)

Lemma fill_chunk_firstn (A : Type) (size : nat) :
  forall (seq chunk : list A),
    Api.fill_chunk size seq chunk
    = ((chunk ++ firstn size seq)%list, Nat.ltb (length seq) size).
Proof.
  induction size as [|size IH]; intros seq chunk; cbn [Api.fill_chunk firstn].
  - now rewrite app_nil_r.
  - destruct seq as [|x seq]; [now rewrite app_nil_r|].
    rewrite IH, <- app_assoc. reflexivity.
Qed.

(** X1: [chunks] yields one chunk at most, the first [size] elements of
    the sequence; what comes after them is never yielded.  It yields
    nothing exactly for an empty sequence and a size of one at least. *)
Theorem chunks_first_chunk_only (A : Type) (seq : list A) (size : Z) :
  length (Api.chunks seq size) <= 1
  /\ concat (Api.chunks seq size) = firstn (Z.to_nat size) seq
  /\ (Api.chunks seq size = [] <-> seq = [] /\ (0 < size)%Z).
Proof.
  unfold Api.chunks. rewrite fill_chunk_firstn. cbn [app].
  destruct (Nat.ltb_spec (length seq) (Z.to_nat size)) as [Lt|Ge].
  - destruct seq as [|x seq].
    + rewrite firstn_nil. cbn. repeat split; try lia; auto.
    + destruct (Z.to_nat size) as [|n] eqn:E; [cbn in Lt; lia|].
      cbn [firstn length concat app]. rewrite app_nil_r.
      repeat split; try lia; try discriminate. intros [? _]. discriminate.
  - cbn [length concat]. rewrite app_nil_r.
    repeat split; try lia; try discriminate.
    intros [-> H]. cbn in Ge. lia.
Qed.

(** ** The name in a signature *)

Lemma strip_prefix_some (p s rest : string) :
  strip_prefix p s = Some rest -> s = p ++ rest.
Proof.
  revert s; induction p as [|a p IH]; intros s; cbn [strip_prefix].
  - intros H; injection H as ->. reflexivity.
  - destruct s as [|b s]; [discriminate|].
    destruct (Ascii.eqb_spec a b) as [<-|]; [|discriminate].
    intros H. cbn. now rewrite (IH _ H).
Qed.

Lemma name_of_clean (s : string) :
  occurs "|" (name_of s) = false /\ occurs "]" (name_of s) = false.
Proof.
  induction s as [|c s [IH1 IH2]]; cbn [name_of]; [split; reflexivity|].
  destruct (Ascii.eqb c "|" || Ascii.eqb c "]") eqn:E; [split; reflexivity|].
  apply orb_false_elim in E. destruct E as [E1 E2].
  cbn [occurs].
  rewrite (Ascii.eqb_sym "|" c), (Ascii.eqb_sym "]" c), E1, E2, IH1, IH2.
  split; reflexivity.
Qed.

Lemma after_name_head (s : string) :
  after_name s = ""
  \/ exists c rest,
       after_name s = String c rest /\ (c = "|"%char \/ c = "]"%char).
Proof.
  induction s as [|c s IH]; cbn [after_name]; [now left|].
  destruct (Ascii.eqb c "|" || Ascii.eqb c "]") eqn:E; [|exact IH].
  right. exists c, s. split; [reflexivity|].
  apply orb_prop in E. destruct E as [E|E]; apply Ascii.eqb_eq in E; auto.
Qed.

Lemma link_name_some (s name : string) :
  link_name s = Some name ->
  exists prefix target,
    (prefix = "[[User:" \/ prefix = "[[User_talk:")
    /\ s = prefix ++ target
    /\ name = name_of target
    /\ name <> "".
Proof.
  unfold link_name.
  assert (N : forall t n, nonempty (name_of t) = Some n ->
                          n = name_of t /\ n <> "").
  { intros t n. destruct (name_of t); cbn; [discriminate|].
    intros H; injection H as <-. split; [reflexivity|discriminate]. }
  destruct (strip_prefix "[[User:" s) as [t|] eqn:E1.
  - intros H. apply N in H. destruct H as [H1 H2].
    exists "[[User:", t. repeat split; auto. now apply strip_prefix_some.
  - destruct (strip_prefix "[[User_talk:" s) as [t|] eqn:E2; [|discriminate].
    intros H. apply N in H. destruct H as [H1 H2].
    exists "[[User_talk:", t. repeat split; auto. now apply strip_prefix_some.
Qed.

Lemma first_signature_some (s name : string) :
  first_signature s = Some name ->
  exists before c after,
    s = before ++ String c after
    /\ c <> "@"%char
    /\ link_name after = Some name.
Proof.
  induction s as [|c s IH]; cbn [first_signature]; [discriminate|].
  assert (Later : first_signature s = Some name ->
                  exists before c0 after,
                    String c s = before ++ String c0 after
                    /\ c0 <> "@"%char /\ link_name after = Some name).
  { intros H. destruct (IH H) as (before & c0 & after & -> & Hc & Hl).
    exists (String c before), c0, after. auto. }
  destruct (Ascii.eqb_spec c "@") as [->|Hc]; [exact Later|].
  destruct (link_name s) as [n|] eqn:L; [|exact Later].
  intros H; injection H as ->.
  exists "", c, s. auto.
Qed.

(** X3: a name that [parse_username] returns is the decoded text that
    stands, in the line, after a character other than the mention marker
    and the opening of a link to a user page or user talk page; that text
    is not empty, has no pipe and no closing bracket, and runs up to the
    first of them or to the end of the line. *)
Theorem parse_username_in_line (env : Environment) (line value : string) :
  Vote.parse_username env line = Some value ->
  exists before c prefix name rest,
    line = before ++ String c (prefix ++ name ++ rest)
    /\ c <> "@"%char
    /\ (prefix = "[[User:" \/ prefix = "[[User_talk:")
    /\ name <> ""
    /\ occurs "|" name = false /\ occurs "]" name = false
    /\ (rest = ""
        \/ exists c' rest', rest = String c' rest'
                            /\ (c' = "|"%char \/ c' = "]"%char))
    /\ value = unescape env name.
Proof.
  rewrite parse_username_found.
  destruct (first_signature line) as [name|] eqn:F; [|discriminate].
  cbn [option_map]. intros H; injection H as <-.
  destruct (first_signature_some _ F) as (before & c & after & -> & Hc & L).
  destruct (link_name_some _ L) as (prefix & target & Hp & -> & -> & Hn).
  exists before, c, prefix, (name_of target), (after_name target).
  rewrite <- name_split.
  destruct (name_of_clean target) as [C1 C2].
  repeat split; auto. apply after_name_head.
Qed.

Lemma parse_username_in_line_witness :
  exists before c prefix name rest,
    "#Oppose [[User_talk:Carol|talk]]"
    = before ++ String c (prefix ++ name ++ rest)
    /\ c <> "@"%char
    /\ (prefix = "[[User:" \/ prefix = "[[User_talk:")
    /\ name <> ""
    /\ occurs "|" name = false /\ occurs "]" name = false
    /\ (rest = ""
        \/ exists c' rest', rest = String c' rest'
                            /\ (c' = "|"%char \/ c' = "]"%char))
    /\ "Carol" = unescape Fixture.env name.
Proof.
  exact (@parse_username_in_line Fixture.env
           "#Oppose [[User_talk:Carol|talk]]" "Carol" eq_refl).
Defined.

(** ** The vote of a line *)

(** What [from_line] has done when it returns. *)
Lemma from_line_returns (env : Environment) (api : Api.t)
        (line label : string) (vote : Vote.t) :
  Vote.from_line env api line label = Ok vote ->
  Vote.section_label vote = Some label
  /\ Vote.text vote = Some line
  /\ Vote.parse_datetime env line = Ok (Vote.datetime vote)
  /\ Vote.local_gap vote = None /\ Vote.global_gap vote = None
  /\ match Vote.user vote with
     | UNone => True
     | UObject u =>
         User.api u = api
         /\ Vote.parse_username env line = Some (User.username u)
         /\ User.username u <> ""
         /\ (exists groups count first,
               User.groups u = Some groups
               /\ User.editcount u = Some count
               /\ User.first_edit u = Some first)
         /\ (User.global_user u = GFalse
             \/ exists g, User.global_user u = GObject g)
     | UDict _ => False
     end.
Proof.
  unfold Vote.from_line, rbind. intros H.
  destruct (Vote.parse_datetime env line) as [d|e]; [|discriminate].
  destruct (Vote.parse_username env line) as [username|] eqn:P;
    cbn [truthy_str] in H.
  2: { injection H as <-. cbn. auto 10. }
  destruct username as [|c name].
  { injection H as <-. cbn. auto 10. }
  destruct (User.load_data env None (User.init api (String c name)))
    as [u [[]|e]] eqn:L.
  - injection H as <-. cbn.
    apply load_data_returns in L.
    destruct L as (q & local & others & gd & lg & count & contrib & contribs
                   & stamp & first & b & _ & _ & _ & _ & _ & _ & _ & _ & _ & _
                   & _ & Ha & Hn & Hg & Hc & Hf & G).
    cbn in Ha, Hn. rewrite Hn.
    repeat split; auto; try discriminate.
    + exists lg, count, first. auto.
    + destruct b; [right|left]; [|exact G].
      destruct G as (g & _ & G). eauto.
  - destruct e; try discriminate. injection H as <-. cbn. auto 10.
Qed.

(** X4: a vote that [from_line] returns carries the label and the line it
    was given and the time parsed from the line; its two gap fields are
    absent.  Its author is absent or a [User], never a dictionary; a [User]
    is on the wiki of the page, bears the name parsed from the line, and
    has its groups, edit count and first edit, and a federation status. *)
Theorem from_line_fields (env : Environment) (api : Api.t)
        (line label : string) (vote : Vote.t) :
  Vote.from_line env api line label = Ok vote ->
  Vote.section_label vote = Some label
  /\ Vote.text vote = Some line
  /\ Vote.parse_datetime env line = Ok (Vote.datetime vote)
  /\ Vote.local_gap vote = None /\ Vote.global_gap vote = None
  /\ match Vote.user vote with
     | UNone => True
     | UObject u =>
         User.api u = api
         /\ Vote.parse_username env line = Some (User.username u)
         /\ User.username u <> ""
         /\ (exists groups count first,
               User.groups u = Some groups
               /\ User.editcount u = Some count
               /\ User.first_edit u = Some first)
         /\ (User.global_user u = GFalse
             \/ exists g, User.global_user u = GObject g)
     | UDict _ => False
     end.
Proof. apply from_line_returns. Qed.

Lemma from_line_fields_witness :
  Vote.section_label
    {| Vote.section_label := Some "Oppose";
       Vote.text := Some "#Oppose [[User:Ghost]]"; Vote.user := UNone;
       Vote.datetime := None; Vote.local_gap := None;
       Vote.global_gap := None |} = Some "Oppose".
Proof.
  exact (proj1 (@from_line_fields Fixture.env Fixture.api
                  "#Oppose [[User:Ghost]]" "Oppose" _ eq_refl)).
Defined.

(** ** Sections, limits and endings *)

Lemma in_firstn (A : Type) (n : nat) (l : list A) (x : A) :
  In x (firstn n l) -> In x l.
Proof.
  intros I. rewrite <- (firstn_skipn n l). apply in_or_app. now left.
Qed.

Section RunProperties.
Variable env : Environment.
Variable self : VotePage.t.

(** A selector leaves the sections it does not skip, read as without one. *)
Lemma votes_of_sections_selected (section : section_arg) (limit : option Z)
      (items : list (string * Z)) :
  forall i,
    VotePage.votes_of_sections env self section limit items i
    = VotePage.votes_of_sections env self AnySection limit
        (filter (fun item => negb (VotePage.skips section (fst item) (snd item)))
           items) i.
Proof.
  induction items as [|[label id] items IH]; intros i; [reflexivity|].
  rewrite votes_of_sections_cons. cbn [filter fst snd].
  destruct (VotePage.skips section label id) eqn:S; cbn [negb]; [apply IH|].
  rewrite votes_of_sections_cons. cbn [VotePage.skips].
  destruct (VotePage.get_vote_lines env self id) as [lines|e]; [|reflexivity].
  cbv zeta.
  destruct (snd (VotePage.votes_of_lines env self label limit lines i));
    [reflexivity|].
  now rewrite IH.
Qed.

(** The sections are asked for in the order of the registry, without a gap;
    an exception that ends the run is that of a section it asked for. *)
Lemma votes_of_sections_fetched (limit : option Z) (items : list (string * Z)) :
  forall i,
    let r := VotePage.votes_of_sections env self AnySection limit items i in
    (exists K, fetched (fst r) = map snd (firstn K items))
    /\ (forall e, snd r = Raised e ->
                  exists label id,
                    In (label, id) items
                    /\ VotePage.get_vote_lines env self id = Raise e).
Proof.
  induction items as [|[label id] items IH]; intros i; cbv zeta.
  - split; [exists 0; reflexivity|]. cbn. discriminate.
  - rewrite votes_of_sections_cons. cbn [VotePage.skips].
    destruct (VotePage.get_vote_lines env self id) as [lines|e] eqn:G.
    + cbv zeta.
      destruct (votes_of_lines_prefix env self label limit lines i) as (F & _).
      destruct (snd (VotePage.votes_of_lines env self label limit lines i)).
      * cbn [fst snd fetched]. rewrite F.
        split; [exists 1; reflexivity|discriminate].
      * destruct (IH (snd (fst (VotePage.votes_of_lines env self label limit
                                  lines i)))) as ([K HK] & R).
        cbn [fst snd fetched]. rewrite fetched_app, F, HK. split.
        -- exists (S K). reflexivity.
        -- intros e E. destruct (R e E) as (l' & id' & I & G').
           exists l', id'. split; [now right|exact G'].
    + cbn [fst snd fetched]. split; [exists 1; reflexivity|].
      intros e' E. injection E as <-.
      exists label, id. split; [now left|exact G].
Qed.

Lemma candidate_lines_label (items : list (string * Z)) (label line : string) :
  In (label, line) (candidate_lines env self items) ->
  exists id, In (label, id) items.
Proof.
  induction items as [|[l id] items IH]; cbn [candidate_lines]; [intros []|].
  destruct (VotePage.get_vote_lines env self id) as [lines|e]; [|intros []].
  intros I. apply in_app_or in I. destruct I as [I|I].
  - apply in_map_iff in I. destruct I as (x & E & _). injection E as <- _.
    exists id. now left.
  - destruct (IH I) as [id' I']. exists id'. now right.
Qed.

Lemma built_from (l : list (string * string)) (vote : Vote.t) :
  In vote (built env self l) ->
  exists label line,
    In (label, line) l
    /\ Vote.from_line env (VotePage.api self) line label = Ok vote.
Proof.
  induction l as [|[label line] l IH]; cbn [built]; [intros []|].
  destruct (Vote.from_line env (VotePage.api self) line label) as [v|e] eqn:F.
  - intros [<-|I].
    + exists label, line. split; [now left|exact F].
    + destruct (IH I) as (l' & line' & I' & F').
      exists l', line'. split; [now right|exact F'].
  - intros I. destruct (IH I) as (l' & line' & I' & F').
    exists l', line'. split; [now right|exact F'].
Qed.

(** The label of every vote is that of a section of the registry that the
    selector does not skip. *)
Lemma votes_labels (section : section_arg) (limit : option Z) (vote : Vote.t) :
  In vote (votes (fst (VotePage.get_votes env self section limit))) ->
  exists label id,
    In (label, id) (VotePage.sections self)
    /\ VotePage.skips section label id = false
    /\ Vote.section_label vote = Some label.
Proof.
  unfold VotePage.get_votes. rewrite votes_of_sections_selected.
  destruct (votes_of_sections_prefix env self limit
              (filter (fun item => negb (VotePage.skips section (fst item)
                                           (snd item)))
                 (VotePage.sections self)) 0%Z) as [K V].
  rewrite V. intros I. apply built_from in I.
  destruct I as (label & line & I & F).
  apply in_firstn, candidate_lines_label in I. destruct I as [id I].
  apply filter_In in I. destruct I as [I S]. cbn [fst snd] in S.
  exists label, id. repeat split; auto.
  - now apply negb_true_iff.
  - apply (from_line_returns _ _ _ _ F).
Qed.

Lemma fetched_selected (section : section_arg) (limit : option Z) (id : Z) :
  In id (fetched (fst (VotePage.get_votes env self section limit))) ->
  exists label,
    In (label, id) (VotePage.sections self)
    /\ VotePage.skips section label id = false.
Proof.
  unfold VotePage.get_votes. rewrite votes_of_sections_selected.
  destruct (votes_of_sections_fetched limit
              (filter (fun item => negb (VotePage.skips section (fst item)
                                           (snd item)))
                 (VotePage.sections self)) 0%Z) as ([K F] & _).
  rewrite F. intros I. apply in_map_iff in I.
  destruct I as ([label id'] & E & I). cbn in E. subst id'.
  apply in_firstn, filter_In in I. destruct I as [I S]. cbn [fst snd] in S.
  exists label. split; [exact I|now apply negb_true_iff].
Qed.

End RunProperties.

(** X5: with a label that is not empty as selector, [get_votes] asks for
    the text of sections of that label only, and every vote it yields
    bears that label. *)
Theorem get_votes_of_label (env : Environment) (self : VotePage.t)
        (label : string) (limit : option Z) :
  label <> "" ->
  (forall id,
     In id (fetched (fst (VotePage.get_votes env self (SectionLabel label)
                            limit))) ->
     In (label, id) (VotePage.sections self))
  /\ (forall vote,
        In vote (votes (fst (VotePage.get_votes env self (SectionLabel label)
                               limit))) ->
        Vote.section_label vote = Some label).
Proof.
  intros N.
  assert (S : forall l id, VotePage.skips (SectionLabel label) l id = false ->
                           l = label).
  { intros l id. cbn [VotePage.skips truthy_str].
    destruct label; [now elim N|]. cbn [andb]. intros H.
    apply negb_false_iff in H. now apply String.eqb_eq in H. }
  split.
  - intros id I. apply fetched_selected in I. destruct I as (l & I & K).
    now rewrite <- (S _ _ K).
  - intros vote I. apply votes_labels in I. destruct I as (l & id & _ & K & L).
    now rewrite <- (S _ _ K).
Qed.

Lemma get_votes_of_label_witness :
  (forall id,
     In id (fetched (fst (VotePage.get_votes Fixture.env Fixture.vote_page
                            (SectionLabel "Oppose") None))) ->
     In ("Oppose", id) (VotePage.sections Fixture.vote_page))
  /\ (forall vote,
        In vote (votes (fst (VotePage.get_votes Fixture.env Fixture.vote_page
                               (SectionLabel "Oppose") None))) ->
        Vote.section_label vote = Some "Oppose").
Proof.
  apply (@get_votes_of_label Fixture.env Fixture.vote_page "Oppose" None).
  discriminate.
Defined.

(** X6: with an id other than zero as selector, [get_votes] asks for the
    text of that section only, and every vote it yields bears a label that
    the registry gives to that id. *)
Theorem get_votes_of_id (env : Environment) (self : VotePage.t)
        (id : Z) (limit : option Z) :
  id <> 0%Z ->
  (forall id',
     In id' (fetched (fst (VotePage.get_votes env self (SectionId id) limit))) ->
     id' = id)
  /\ (forall vote,
        In vote (votes (fst (VotePage.get_votes env self (SectionId id)
                               limit))) ->
        exists label,
          In (label, id) (VotePage.sections self)
          /\ Vote.section_label vote = Some label).
Proof.
  intros N.
  assert (S : forall l id', VotePage.skips (SectionId id) l id' = false ->
                            id' = id).
  { intros l id'. cbn [VotePage.skips truthy_int].
    destruct (Z.eqb_spec id 0) as [E|_]; [now elim N|]. cbn [negb andb].
    intros H. apply negb_false_iff in H. now apply Z.eqb_eq in H. }
  split.
  - intros id' I. apply fetched_selected in I. destruct I as (l & _ & K).
    exact (S _ _ K).
  - intros vote I. apply votes_labels in I. destruct I as (l & id' & I & K & L).
    exists l. rewrite <- (S _ _ K). auto.
Qed.

Lemma get_votes_of_id_witness :
  (forall id',
     In id' (fetched (fst (VotePage.get_votes Fixture.env Fixture.vote_page
                             (SectionId 2) (Some 1%Z)))) ->
     id' = 2%Z)
  /\ (forall vote,
        In vote (votes (fst (VotePage.get_votes Fixture.env Fixture.vote_page
                               (SectionId 2) (Some 1%Z)))) ->
        exists label,
          In (label, 2%Z) (VotePage.sections Fixture.vote_page)
          /\ Vote.section_label vote = Some label).
Proof.
  apply (@get_votes_of_id Fixture.env Fixture.vote_page 2%Z (Some 1%Z)).
  discriminate.
Defined.

(** X7: an empty label and the id zero are false as selectors: [get_votes]
    reads every section, as it does without a selector. *)
Theorem get_votes_false_selector (env : Environment) (self : VotePage.t)
        (limit : option Z) :
  VotePage.get_votes env self (SectionLabel "") limit
  = VotePage.get_votes env self AnySection limit
  /\ VotePage.get_votes env self (SectionId 0) limit
     = VotePage.get_votes env self AnySection limit.
Proof.
  assert (F : forall (l : list (string * Z)), filter (fun _ => true) l = l).
  { induction l as [|x l IH]; cbn; congruence. }
  unfold VotePage.get_votes. split; rewrite votes_of_sections_selected;
    cbn [VotePage.skips truthy_str truthy_int Z.eqb negb andb];
    now rewrite F.
Qed.

(** X8: the exception that ends a run of [get_votes] is one that reading a
    section of the registry raised; the failure of a lookup or of a date
    never ends it.  Without a selector the sections asked for are the
    first ones of the registry, in its order. *)
Theorem get_votes_ending (env : Environment) (self : VotePage.t)
        (section : section_arg) (limit : option Z) :
  (forall e,
     snd (VotePage.get_votes env self section limit) = Raised e ->
     exists label id,
       In (label, id) (VotePage.sections self)
       /\ VotePage.get_vote_lines env self id = Raise e)
  /\ exists K,
       fetched (fst (VotePage.get_votes env self AnySection limit))
       = map snd (firstn K (VotePage.sections self)).
Proof.
  unfold VotePage.get_votes. split.
  - intros e. rewrite votes_of_sections_selected. intros E.
    match type of E with
    | snd (VotePage.votes_of_sections _ _ _ _ ?items _) = _ =>
        destruct (votes_of_sections_fetched env self limit items 0%Z)
          as (_ & R)
    end.
    destruct (R e E) as (label & id & I & G).
    apply filter_In in I. destruct I as [I _]. eauto.
  - apply votes_of_sections_fetched.
Qed.

Section UnreachedLimit.
Variable env : Environment.
Variable self : VotePage.t.

Lemma votes_of_lines_counter (label : string) (limit : option Z)
      (lines : list string) :
  forall i,
    (i <= snd (fst (VotePage.votes_of_lines env self label limit lines i)))%Z.
Proof.
  induction lines as [|line lines IH]; intros i.
  - cbn. lia.
  - rewrite votes_of_lines_cons.
    destruct (VotePage.reached (i + 1) limit); cbv zeta; cbn [fst snd].
    + lia.
    + specialize (IH (i + 1)%Z). lia.
Qed.

Lemma votes_of_lines_unreached (label : string) (n : Z) (lines : list string) :
  (n <= 0)%Z ->
  forall i,
    (0 <= i)%Z ->
    VotePage.votes_of_lines env self label (Some n) lines i
    = VotePage.votes_of_lines env self label None lines i.
Proof.
  intros Hn. induction lines as [|line lines IH]; intros i Hi; [reflexivity|].
  rewrite !votes_of_lines_cons. cbn [VotePage.reached].
  destruct (Z.eqb_spec (i + 1) n) as [E|_]; [lia|].
  now rewrite IH by lia.
Qed.

Lemma votes_of_sections_unreached (section : section_arg) (n : Z)
      (items : list (string * Z)) :
  (n <= 0)%Z ->
  forall i,
    (0 <= i)%Z ->
    VotePage.votes_of_sections env self section (Some n) items i
    = VotePage.votes_of_sections env self section None items i.
Proof.
  intros Hn. induction items as [|[label id] items IH]; intros i Hi;
    [reflexivity|].
  rewrite !votes_of_sections_cons.
  destruct (VotePage.skips section label id); [now apply IH|].
  destruct (VotePage.get_vote_lines env self id) as [lines|e]; [|reflexivity].
  cbv zeta. rewrite (votes_of_lines_unreached label lines Hn Hi).
  pose proof (votes_of_lines_counter label None lines i) as C.
  now rewrite IH by lia.
Qed.

End UnreachedLimit.

(** X9: the counter of [get_votes] is one at least when it is compared with
    the limit, so a limit of zero or less is never reached: the run is the
    run without a limit. *)
Theorem get_votes_limit_not_positive (env : Environment) (self : VotePage.t)
        (section : section_arg) (n : Z) :
  (n <= 0)%Z ->
  VotePage.get_votes env self section (Some n)
  = VotePage.get_votes env self section None.
Proof.
  intros Hn. unfold VotePage.get_votes.
  apply votes_of_sections_unreached; [exact Hn|lia].
Qed.

Lemma get_votes_limit_not_positive_witness :
  VotePage.get_votes Fixture.env Fixture.vote_page AnySection (Some 0%Z)
  = VotePage.get_votes Fixture.env Fixture.vote_page AnySection None.
Proof.
  apply (@get_votes_limit_not_positive Fixture.env Fixture.vote_page
           AnySection 0%Z).
  apply Z.le_refl.
Defined.

(** X10: the section with the id zero cannot be read: [get_vote_lines]
    raises [ValueError] for it without a request, whatever the wiki holds,
    and a run whose registry begins with it ends there with no vote. *)
Theorem get_votes_section_zero (env : Environment) (self : VotePage.t) :
  VotePage.get_vote_lines env self 0 = Raise ValueError
  /\ forall label items limit,
       VotePage.sections self = (label, 0%Z) :: items ->
       VotePage.get_votes env self AnySection limit
       = ([GetSectionText 0], Raised ValueError).
Proof.
  assert (G : VotePage.get_vote_lines env self 0 = Raise ValueError)
    by reflexivity.
  split; [exact G|].
  intros label items limit E. unfold VotePage.get_votes.
  rewrite E, votes_of_sections_cons. cbn [VotePage.skips]. now rewrite G.
Qed.

(** ** Page and revision *)

Section SameRevision.
Variable env : Environment.
Variables self self' : VotePage.t.
Hypothesis same_api : VotePage.api self = VotePage.api self'.
Hypothesis same_lines :
  forall id, VotePage.get_vote_lines env self id
             = VotePage.get_vote_lines env self' id.

Lemma votes_of_lines_same (label : string) (limit : option Z)
      (lines : list string) :
  forall i,
    VotePage.votes_of_lines env self label limit lines i
    = VotePage.votes_of_lines env self' label limit lines i.
Proof.
  induction lines as [|line lines IH]; intros i; [reflexivity|].
  rewrite !votes_of_lines_cons. unfold yielded. rewrite same_api.
  destruct (VotePage.reached (i + 1) limit); [reflexivity|].
  now rewrite IH.
Qed.

Lemma votes_of_sections_same (section : section_arg) (limit : option Z)
      (items : list (string * Z)) :
  forall i,
    VotePage.votes_of_sections env self section limit items i
    = VotePage.votes_of_sections env self' section limit items i.
Proof.
  induction items as [|[label id] items IH]; intros i; [reflexivity|].
  rewrite !votes_of_sections_cons, same_lines.
  destruct (VotePage.skips section label id); [apply IH|].
  destruct (VotePage.get_vote_lines env self' id) as [lines|e]; [|reflexivity].
  cbv zeta. rewrite votes_of_lines_same.
  destruct (snd (VotePage.votes_of_lines env self' label limit lines i));
    [reflexivity|].
  now rewrite IH.
Qed.

End SameRevision.

(** X11: with a revision id other than zero the page name is ignored: two
    pages that differ in their name only give the same run, and the section
    text is asked for by revision.  A revision id of zero counts as no
    revision. *)
Theorem revision_overrides_page (env : Environment) (api : Api.t)
        (page page' : option string) (revision : Z)
        (sections : list (string * Z)) (section : section_arg)
        (limit : option Z) :
  revision <> 0%Z ->
  VotePage.get_votes env
    {| VotePage.api := api; VotePage.page := page;
       VotePage.revision := Some revision; VotePage.sections := sections |}
    section limit
  = VotePage.get_votes env
      {| VotePage.api := api; VotePage.page := page';
         VotePage.revision := Some revision; VotePage.sections := sections |}
      section limit
  /\ VotePage.get_page_arg
       {| VotePage.api := api; VotePage.page := page;
          VotePage.revision := Some revision; VotePage.sections := sections |}
     = (Some revision, None)
  /\ (forall id,
        Api.get_section_text env api page (Some 0%Z) id
        = Api.get_section_text env api page None id).
Proof.
  intros N.
  assert (T : truthy_int (Some revision) = true).
  { cbn. now destruct (Z.eqb_spec revision 0). }
  split; [|split].
  - unfold VotePage.get_votes. cbn [VotePage.sections].
    apply votes_of_sections_same; [reflexivity|].
    intros id. unfold VotePage.get_vote_lines, Api.get_section_text.
    cbn [VotePage.api VotePage.page VotePage.revision].
    rewrite T. cbn [negb andb]. rewrite !andb_false_r. reflexivity.
  - unfold VotePage.get_page_arg. cbn [VotePage.revision]. now rewrite T.
  - reflexivity.
Qed.

Lemma revision_overrides_page_witness :
  VotePage.get_votes Fixture.env
    {| VotePage.api := Fixture.api; VotePage.page := Some "RFC";
       VotePage.revision := Some 7%Z;
       VotePage.sections := [("Support", 1%Z)] |}
    AnySection None
  = VotePage.get_votes Fixture.env
      {| VotePage.api := Fixture.api; VotePage.page := None;
         VotePage.revision := Some 7%Z;
         VotePage.sections := [("Support", 1%Z)] |}
      AnySection None.
Proof.
  apply (@revision_overrides_page Fixture.env Fixture.api (Some "RFC") None
           7%Z [("Support", 1%Z)] AnySection None).
  discriminate.
Defined.

(** ** The registry, once more *)

Lemma insert_by_id_first (x : string * Z) (l : list (string * Z)) :
  Sorted by_id (x :: l) -> VotePage.insert_by_id x l = x :: l.
Proof.
  intros S. inversion S as [|? ? _ H]; subst.
  destruct l as [|y l]; [reflexivity|].
  inversion H as [|? ? Le]; subst. unfold by_id in Le.
  cbn [VotePage.insert_by_id].
  destruct (Z.leb_spec (snd x) (snd y)); [reflexivity|lia].
Qed.

(** X12: [create_ordered_dict] leaves a mapping that is already in the
    order of the section ids as it is, so ordering twice is ordering
    once. *)
Theorem create_ordered_dict_of_sorted (sections : list (string * Z)) :
  (Sorted by_id sections -> VotePage.create_ordered_dict sections = sections)
  /\ VotePage.create_ordered_dict (VotePage.create_ordered_dict sections)
     = VotePage.create_ordered_dict sections.
Proof.
  assert (F : forall l, Sorted by_id l -> VotePage.create_ordered_dict l = l).
  { unfold VotePage.create_ordered_dict.
    induction l as [|x l IH]; intros S; [reflexivity|].
    cbn [VotePage.sorted_by_id]. inversion S; subst.
    rewrite IH by assumption. now apply insert_by_id_first. }
  split; [apply F|]. apply F, create_ordered_dict_sorted.
Qed.

(** ** Loading a user *)

(** X13: for an account that the wiki reports missing or invalid,
    [load_data] raises [NoSuchUserException] with the name of the user and
    has assigned nothing; but the federation record is read before the
    report is looked at, so a response without one raises [KeyError]
    instead. *)
Theorem load_data_unknown_user (env : Environment) (data : option Query)
        (u : User.t) (q : Query) (local : UserInfo) (others : list UserInfo) :
  User.given_or_queried env u data = Ok q ->
  q_users q = Some (local :: others) ->
  (forall global_data,
     q_globaluserinfo q = Some global_data ->
     us_missing local = true \/ us_invalid local = true ->
     User.load_data env data u
     = (u, Raise (NoSuchUserException (User.username u))))
  /\ (q_globaluserinfo q = None ->
      User.load_data env data u = (u, Raise KeyError)).
Proof.
  intros Hq Hu. unfold User.load_data. unfold_se.
  rewrite Hq, Hu. cbn [getitem index0]. split.
  - intros gd Hg M. rewrite Hg.
    assert (B : us_missing local || us_invalid local = true)
      by (destruct M as [-> | ->]; [reflexivity|apply orb_true_r]).
    now rewrite B.
  - intros Hg. now rewrite Hg.
Qed.

Lemma load_data_unknown_user_witness :
  (forall global_data,
     q_globaluserinfo Fixture.ghost_local = Some global_data ->
     true = true \/ false = true ->
     User.load_data Fixture.env None (User.init Fixture.api "Ghost")
     = (User.init Fixture.api "Ghost", Raise (NoSuchUserException "Ghost")))
  /\ (q_globaluserinfo Fixture.ghost_local = None ->
      User.load_data Fixture.env None (User.init Fixture.api "Ghost")
      = (User.init Fixture.api "Ghost", Raise KeyError)).
Proof.
  exact (@load_data_unknown_user Fixture.env None
           (User.init Fixture.api "Ghost") Fixture.ghost_local _ []
           eq_refl eq_refl).
Defined.

(** X14: [load_data] never changes the wiki or the name of the user, and
    it assigns the federation status last: when it raises, [global_user]
    is what it was before the call. *)
Theorem load_data_frame (env : Environment) (data : option Query)
        (u : User.t) :
  User.api (fst (User.load_data env data u)) = User.api u
  /\ User.username (fst (User.load_data env data u)) = User.username u
  /\ (forall e,
        snd (User.load_data env data u) = Raise e ->
        User.global_user (fst (User.load_data env data u))
        = User.global_user u).
Proof.
  unfold User.load_data. unfold_se.
  repeat match goal with
         | |- context [match ?x with _ => _ end] => destruct x
         | |- context [if ?x then _ else _] => destruct x
         end;
    cbn; repeat split; intros; congruence.
Qed.

(** X15: passing the response to [load_data] is the same as letting it
    ask, when the wiki answers with that response; a response without any
    key counts as none and makes it ask. *)
Theorem load_data_given_response (env : Environment) (u : User.t) (q : Query) :
  (User.no_data (Some q) = false ->
   User.local_query env u = Ok q ->
   User.load_data env (Some q) u = User.load_data env None u)
  /\ User.load_data env
       (Some {| q_users := None; q_usercontribs := None;
                q_globaluserinfo := None; q_pages := None |}) u
     = User.load_data env None u.
Proof.
  unfold User.load_data, bind, get, User.given_or_queried. split.
  - intros N L. now rewrite N, L.
  - reflexivity.
Qed.

Lemma load_data_given_response_witness :
  User.load_data Fixture.env (Some Fixture.carol_local)
    (User.init Fixture.api "Carol")
  = User.load_data Fixture.env None (User.init Fixture.api "Carol").
Proof.
  exact (proj1 (@load_data_given_response Fixture.env
                  (User.init Fixture.api "Carol") Fixture.carol_local)
           eq_refl eq_refl).
Defined.

(** X16: once [load_data] has returned, the questions on the user have
    answers: [is_admin] tells whether ['sysop'] is among the groups on the
    wiki of the vote, and the home wiki and the global edit count are those
    of the federation record for a federated account and absent for
    another.  Before the call [is_admin] raises. *)
Theorem loaded_user_answers (env : Environment) (data : option Query)
        (u u' : User.t) :
  User.load_data env data u = (u', Ok tt) ->
  exists q local others global_data local_groups,
    User.given_or_queried env u data = Ok q
    /\ q_users q = Some (local :: others)
    /\ us_groups local = Some local_groups
    /\ q_globaluserinfo q = Some global_data
    /\ User.is_admin u' = Ok (existsb (String.eqb "sysop") local_groups)
    /\ (existsb (String.eqb "sysop") local_groups = true
        <-> In "sysop" local_groups)
    /\ ((exists g, User.global_user u' = GObject g)
        -> User.get_home_wiki u' = Ok (gui_home global_data)
           /\ User.get_global_editcount u' = Ok (gui_editcount global_data))
    /\ (User.global_user u' = GFalse
        -> User.get_home_wiki u' = Ok None
           /\ User.get_global_editcount u' = Ok None)
    /\ User.is_admin (User.init (User.api u) (User.username u))
       = Raise TypeError.
Proof.
  intros H. apply load_data_returns in H.
  destruct H as (q & local & others & gd & lg & count & contrib & contribs
                 & stamp & first & b & Hq & Hu & Hg & _ & _ & Hgr & _ & _ & _
                 & _ & _ & _ & _ & Hgroups & _ & _ & G).
  exists q, local, others, gd, lg.
  repeat split; auto.
  - unfold User.is_admin. now rewrite Hgroups.
  - intros E. apply existsb_exists in E. destruct E as (x & I & E).
    apply String.eqb_eq in E. now subst x.
  - intros I. apply existsb_exists. exists "sysop".
    split; [exact I|apply String.eqb_refl].
  - destruct H as [g Hg']. unfold User.get_home_wiki. rewrite Hg'.
    destruct b; [|rewrite G in Hg'; discriminate].
    destruct G as (g0 & F & G). rewrite G in Hg'. injection Hg' as <-.
    unfold GlobalUser.from_globaluserinfo, rbind in F.
    repeat case_step F. injection F as <-. cbn.
    read_items. congruence.
  - destruct H as [g Hg']. unfold User.get_global_editcount. rewrite Hg'.
    destruct b; [|rewrite G in Hg'; discriminate].
    destruct G as (g0 & F & G). rewrite G in Hg'. injection Hg' as <-.
    unfold GlobalUser.from_globaluserinfo, rbind in F.
    repeat case_step F. injection F as <-. cbn.
    read_items. congruence.
  - unfold User.get_home_wiki. now rewrite H.
  - unfold User.get_global_editcount. now rewrite H.
Qed.

Lemma loaded_user_answers_witness :
  exists q local others global_data local_groups,
    User.given_or_queried Fixture.env (User.init Fixture.api "Alice") None
    = Ok q
    /\ q_users q = Some (local :: others)
    /\ us_groups local = Some local_groups
    /\ q_globaluserinfo q = Some global_data
    /\ User.is_admin Fixture.alice
       = Ok (existsb (String.eqb "sysop") local_groups)
    /\ (existsb (String.eqb "sysop") local_groups = true
        <-> In "sysop" local_groups)
    /\ ((exists g, User.global_user Fixture.alice = GObject g)
        -> User.get_home_wiki Fixture.alice = Ok (gui_home global_data)
           /\ User.get_global_editcount Fixture.alice
              = Ok (gui_editcount global_data))
    /\ (User.global_user Fixture.alice = GFalse
        -> User.get_home_wiki Fixture.alice = Ok None
           /\ User.get_global_editcount Fixture.alice = Ok None)
    /\ User.is_admin (User.init (User.api (User.init Fixture.api "Alice"))
                        (User.username (User.init Fixture.api "Alice")))
       = Raise TypeError.
Proof.
  exact (@loaded_user_answers Fixture.env None (User.init Fixture.api "Alice")
           Fixture.alice eq_refl).
Defined.

(** ** The federated profile *)

Lemma merged_accounts_lists (accounts : list Account) :
  forall wikis urls wikis' urls',
    GlobalUser.merged_accounts accounts wikis urls = Ok (wikis', urls') ->
    exists new_wikis new_urls,
      wikis' = (wikis ++ new_wikis)%list
      /\ urls' = (urls ++ new_urls)%list
      /\ map acc_wiki accounts = map Some new_wikis
      /\ map acc_url accounts = map Some new_urls.
Proof.
  induction accounts as [|a accounts IH]; intros wikis urls wikis' urls';
    cbn [GlobalUser.merged_accounts].
  - intros H; injection H as <- <-. exists [], []. now rewrite !app_nil_r.
  - unfold rbind. destruct (acc_wiki a) as [w|] eqn:W; [|discriminate].
    destruct (acc_url a) as [r|] eqn:R; [|discriminate]. cbn [getitem].
    intros H. destruct (IH _ _ _ _ H) as (nw & nu & -> & -> & Hw & Hu).
    exists (w :: nw), (r :: nu). rewrite <- !app_assoc. cbn [app map].
    rewrite W, R, Hw, Hu. auto.
Qed.

(** X17: the profile that [from_globaluserinfo] builds lists the wikis and
    the addresses of the merged accounts, one of each for every account and
    in their order, with the home wiki and the edit count of the record;
    its groups and first edit are absent. *)
Theorem from_globaluserinfo_profile (username : string)
        (global_data : GlobalUserInfo) (g : GlobalUser.t) :
  GlobalUser.from_globaluserinfo username global_data = Ok g ->
  exists accounts wikis urls,
    gui_merged global_data = Some accounts
    /\ GlobalUser.wikis g = Attr (Some wikis)
    /\ GlobalUser.wiki_urls g = Attr (Some urls)
    /\ map acc_wiki accounts = map Some wikis
    /\ map acc_url accounts = map Some urls
    /\ length wikis = length accounts /\ length urls = length accounts
    /\ GlobalUser.username g = username
    /\ Some (GlobalUser.home_wiki g) = Some (gui_home global_data)
    /\ GlobalUser.editcount g = gui_editcount global_data
    /\ GlobalUser.groups g = None /\ GlobalUser.first_edit g = None.
Proof.
  unfold GlobalUser.from_globaluserinfo, rbind. intros H.
  repeat case_step H. injection H as <-. read_items.
  match goal with
  | M : GlobalUser.merged_accounts _ _ _ = Ok ?p |- _ =>
      destruct p as [wikis urls];
      destruct (merged_accounts_lists _ _ _ M) as (nw & nu & E1 & E2 & Hw & Hu)
  end.
  cbn [app] in E1, E2. subst.
  eexists _, nw, nu. cbn.
  repeat split; try eassumption; try congruence.
  - rewrite <- (length_map Some nw), <- Hw. apply length_map.
  - rewrite <- (length_map Some nu), <- Hu. apply length_map.
Qed.

Lemma from_globaluserinfo_profile_witness :
  exists accounts wikis urls,
    gui_merged Fixture.alice_global = Some accounts
    /\ GlobalUser.wikis Fixture.alice_profile = Attr (Some wikis)
    /\ GlobalUser.wiki_urls Fixture.alice_profile = Attr (Some urls)
    /\ map acc_wiki accounts = map Some wikis
    /\ map acc_url accounts = map Some urls
    /\ length wikis = length accounts /\ length urls = length accounts
    /\ GlobalUser.username Fixture.alice_profile = "Alice"
    /\ Some (GlobalUser.home_wiki Fixture.alice_profile)
       = Some (gui_home Fixture.alice_global)
    /\ GlobalUser.editcount Fixture.alice_profile
       = gui_editcount Fixture.alice_global
    /\ GlobalUser.groups Fixture.alice_profile = None
    /\ GlobalUser.first_edit Fixture.alice_profile = None.
Proof.
  exact (@from_globaluserinfo_profile "Alice" Fixture.alice_global
           Fixture.alice_profile eq_refl).
Defined.

Section MergeProperties.
Variable env : Environment.

Lemma same_account_refl (g : GlobalUser.t) : same_account g g.
Proof. repeat split. Qed.

Lemma same_account_trans (g1 g2 g3 : GlobalUser.t) :
  same_account g1 g2 -> same_account g2 g3 -> same_account g1 g3.
Proof.
  unfold same_account. intros (A1 & A2 & A3 & A4 & A5) (B1 & B2 & B3 & B4 & B5).
  repeat split; congruence.
Qed.

Lemma load_site_same_account (url : string) (g : GlobalUser.t) :
  same_account g (fst (GlobalUser.load_site env url g)).
Proof.
  unfold GlobalUser.load_site. unfold_se.
  repeat match goal with
         | |- context [match ?x with _ => _ end] => destruct x
         | |- context [if ?x then _ else _] => destruct x
         end;
    cbn; repeat split.
Qed.

Lemma load_sites_same_account (urls : list string) :
  forall g, same_account g (fst (GlobalUser.load_sites env urls g)).
Proof.
  induction urls as [|url urls IH]; intros g; cbn [GlobalUser.load_sites].
  - apply same_account_refl.
  - unfold bind. pose proof (load_site_same_account url g) as S.
    destruct (GlobalUser.load_site env url g) as [g1 [[]|e]]; cbn [fst] in *.
    + exact (same_account_trans S (IH g1)).
    + exact S.
Qed.

Lemma load_data_same_account (g : GlobalUser.t) :
  same_account g (fst (GlobalUser.load_data env g)).
Proof.
  unfold GlobalUser.load_data. unfold_se. cbn [GlobalUser.wiki_urls
    GlobalUser.set_groups].
  destruct (GlobalUser.wiki_urls g) as [|[urls|]] eqn:U.
  - cbn. repeat split.
  - refine (same_account_trans _ (load_sites_same_account urls _)).
    repeat split.
  - cbn. repeat split.
Qed.

(** The merge up to a wiki that does not answer. *)
Lemma load_sites_fails (url : string) (urls' : list string) (e : exn)
      (urls : list string) (reports : list (list string * option DateTime)) :
  forall (g : GlobalUser.t) (acc : list string),
    Forall2 (site_reports env (GlobalUser.username g)) urls reports ->
    GlobalUser.groups g = Some acc ->
    request env (url ++ "/w/api.php") (SiteUserQuery (GlobalUser.username g))
    = Raise e ->
    exists g',
      GlobalUser.load_sites env (urls ++ url :: urls') g = (g', Raise e)
      /\ GlobalUser.groups g' = Some (acc ++ concat (map fst reports))%list
      /\ GlobalUser.first_edit g'
         = opt_min (GlobalUser.first_edit g) (earliest (map snd reports)).
Proof.
  revert reports; induction urls as [|u urls IH]; intros reports g acc F Hacc R;
    inversion F as [|? report ? reports' Hsite F']; subst.
  - exists g. cbn [app GlobalUser.load_sites map concat earliest].
    rewrite app_nil_r. split; [|split; [exact Hacc|]].
    + unfold bind, GlobalUser.load_site, Api.call,
        Api.from_globaluserinfo_url. unfold_se. cbn [Api.endpoint].
      now rewrite R.
    + now destruct (GlobalUser.first_edit g).
  - destruct (load_site_reports g Hsite Hacc) as (g1 & L & Hn & Hg1 & Hf1).
    rewrite <- Hn in F', R.
    destruct (IH reports' g1 _ F' Hg1 R) as (g' & L' & Hg' & Hf').
    exists g'. split.
    + cbn [app GlobalUser.load_sites]. unfold bind. rewrite L. exact L'.
    + split.
      * rewrite Hg'. cbn [map concat]. now rewrite app_assoc.
      * rewrite Hf', Hf1. cbn [map]. rewrite earliest_cons.
        apply opt_min_assoc.
Qed.

End MergeProperties.

(** X18: the merge of [GlobalUser.load_data] stops at the first member
    wiki that does not answer and raises its exception; the wikis after it
    are not asked, and the profile is left with the groups and the earliest
    first edit of the wikis before it. *)
Theorem merge_stops_at_failure (env : Environment) (g : GlobalUser.t)
        (urls : list string) (url : string) (urls' : list string)
        (reports : list (list string * option DateTime)) (e : exn) :
  GlobalUser.wiki_urls g = Attr (Some (urls ++ url :: urls')%list) ->
  Forall2 (site_reports env (GlobalUser.username g)) urls reports ->
  request env (url ++ "/w/api.php") (SiteUserQuery (GlobalUser.username g))
  = Raise e ->
  exists g',
    GlobalUser.load_data env g = (g', Raise e)
    /\ GlobalUser.groups g' = Some (concat (map fst reports))
    /\ GlobalUser.first_edit g'
       = opt_min (GlobalUser.first_edit g) (earliest (map snd reports)).
Proof.
  intros U F R. unfold GlobalUser.load_data. unfold_se.
  cbn [GlobalUser.wiki_urls GlobalUser.set_groups]. rewrite U.
  match goal with
  | |- context [GlobalUser.load_sites env _ ?g1] =>
      destruct (@load_sites_fails env url urls' e urls reports g1 [] F
                  eq_refl R) as (g' & L & Hg & Hf)
  end.
  exists g'. auto.
Qed.

Lemma merge_stops_at_failure_witness :
  exists g',
    GlobalUser.load_data Fixture.env
      (GlobalUser.set_wiki_urls
         (Attr (Some ["http://en.wikipedia.org"; "http://de.wikipedia.org";
                      "http://commons.wikimedia.org"]))
         Fixture.alice_profile)
    = (g', Raise TransportError)
    /\ GlobalUser.groups g' = Some (concat (map fst [(["rollbacker"], Some 1209981600%Z)]))
    /\ GlobalUser.first_edit g'
       = opt_min None (earliest (map snd [(["rollbacker"], Some 1209981600%Z)])).
Proof.
  apply (@merge_stops_at_failure Fixture.env
           (GlobalUser.set_wiki_urls
              (Attr (Some ["http://en.wikipedia.org"; "http://de.wikipedia.org";
                           "http://commons.wikimedia.org"]))
              Fixture.alice_profile)
           ["http://en.wikipedia.org"] "http://de.wikipedia.org"
           ["http://commons.wikimedia.org"]
           [(["rollbacker"], Some 1209981600%Z)] TransportError).
  - reflexivity.
  - constructor; [|constructor].
    do 5 eexists. repeat split; try reflexivity.
    cbn. do 2 eexists. repeat split; reflexivity.
  - reflexivity.
Defined.

(** X19: whatever the member wikis answer, the merge changes nothing of a
    profile but its groups and its first edit: the name, the home wiki, the
    lists of member wikis and the edit count stay. *)
Theorem merge_frame (env : Environment) (g : GlobalUser.t) :
  same_account g (fst (GlobalUser.load_data env g)).
Proof. apply load_data_same_account. Qed.

Lemma opt_min_twice (a b : option DateTime) :
  opt_min (opt_min a b) b = opt_min a b.
Proof.
  unfold DateTime in *.
  destruct a as [x|], b as [y|]; cbn [opt_min]; try reflexivity; f_equal;
    apply Z.min_l || apply Z.min_id; lia.
Qed.

(** X20: the merge can be run again: when every member wiki answers, a
    second run on the merged profile returns and leaves the groups and the
    first edit as the first run left them; the groups are collected anew,
    not added again. *)
Theorem merge_twice (env : Environment) (g : GlobalUser.t)
        (urls : list string) (reports : list (list string * option DateTime)) :
  GlobalUser.wiki_urls g = Attr (Some urls) ->
  Forall2 (site_reports env (GlobalUser.username g)) urls reports ->
  exists g' g'',
    GlobalUser.load_data env g = (g', Ok tt)
    /\ GlobalUser.load_data env g' = (g'', Ok tt)
    /\ GlobalUser.groups g' = Some (concat (map fst reports))
    /\ GlobalUser.groups g'' = GlobalUser.groups g'
    /\ GlobalUser.first_edit g'' = GlobalUser.first_edit g'.
Proof.
  intros U F.
  assert (Run : forall g0,
            GlobalUser.wiki_urls g0 = Attr (Some urls) ->
            GlobalUser.username g0 = GlobalUser.username g ->
            exists g1,
              GlobalUser.load_data env g0 = (g1, Ok tt)
              /\ GlobalUser.groups g1 = Some (concat (map fst reports))
              /\ GlobalUser.first_edit g1
                 = opt_min (GlobalUser.first_edit g0)
                     (earliest (map snd reports))).
  { intros g0 U0 N0. unfold GlobalUser.load_data. unfold_se.
    cbn [GlobalUser.wiki_urls GlobalUser.set_groups]. rewrite U0.
    rewrite <- N0 in F.
    match goal with
    | |- context [GlobalUser.load_sites env _ ?g1] =>
        destruct (@load_sites_reports env urls reports g1 [] F eq_refl)
          as (g' & L & Hg & Hf)
    end.
    exists g'. auto. }
  destruct (Run g U eq_refl) as (g' & L & Hg & Hf).
  pose proof (load_data_same_account env g) as S. rewrite L in S.
  destruct S as (Sn & _ & _ & Su & _). cbn [fst] in Sn, Su.
  destruct (Run g' (eq_trans Su U) Sn) as (g'' & L' & Hg' & Hf').
  exists g', g''. repeat split; auto.
  - congruence.
  - rewrite Hf', Hf. apply opt_min_twice.
Qed.

Lemma merge_twice_witness :
  exists g' g'',
    GlobalUser.load_data Fixture.env Fixture.alice_profile = (g', Ok tt)
    /\ GlobalUser.load_data Fixture.env g' = (g'', Ok tt)
    /\ GlobalUser.groups g'
       = Some (concat (map fst [(["rollbacker"], Some 1209981600%Z);
                                (["sysop"], Some 1262304000%Z)]))
    /\ GlobalUser.groups g'' = GlobalUser.groups g'
    /\ GlobalUser.first_edit g'' = GlobalUser.first_edit g'.
Proof.
  apply (@merge_twice Fixture.env Fixture.alice_profile
           ["http://en.wikipedia.org"; "http://commons.wikimedia.org"]
           [(["rollbacker"], Some 1209981600%Z);
            (["sysop"], Some 1262304000%Z)]).
  - reflexivity.
  - constructor; [|constructor; [|constructor]];
      (do 5 eexists; repeat split; try reflexivity;
       cbn; do 2 eexists; repeat split; reflexivity).
Defined.

(** ** Plain text *)

Lemma after_tag_shorter (s rest : string) :
  after_tag s = Some rest -> String.length rest < String.length s.
Proof.
  induction s as [|c s IH]; cbn [after_tag String.length]; [discriminate|].
  destruct (Ascii.eqb c ">").
  - intros H; injection H as ->. lia.
  - destruct (Ascii.eqb c "010"); [discriminate|].
    intros H. apply IH in H. lia.
Qed.

(** The fuel does not matter once it covers the text. *)
Lemma sub_tags_fuel (f1 : nat) :
  forall f2 s,
    String.length s <= f1 -> String.length s <= f2 ->
    sub_tags f1 s = sub_tags f2 s.
Proof.
  induction f1 as [|f1 IH]; intros f2 s H1 H2.
  - destruct s; [|cbn in H1; lia]. destruct f2; reflexivity.
  - destruct f2 as [|f2]; [destruct s; [reflexivity|cbn in H2; lia]|].
    destruct s as [|c s]; [reflexivity|].
    cbn [String.length] in H1, H2. cbn [sub_tags].
    destruct (Ascii.eqb c "<").
    + destruct (after_tag s) as [rest|] eqn:T.
      * apply after_tag_shorter in T. apply IH; lia.
      * f_equal. apply IH; lia.
    + f_equal. apply IH; lia.
Qed.

Lemma strip_tags_cons (c : ascii) (s : string) :
  strip_tags (String c s)
  = if Ascii.eqb c "<"
    then match after_tag s with
         | Some rest => strip_tags rest
         | None => String c (strip_tags s)
         end
    else String c (strip_tags s).
Proof.
  unfold strip_tags. cbn [String.length sub_tags].
  destruct (Ascii.eqb c "<"); [|reflexivity].
  destruct (after_tag s) as [rest|] eqn:T; [|reflexivity].
  apply after_tag_shorter in T. apply sub_tags_fuel; lia.
Qed.

Lemma strip_tags_plain (s : string) :
  occurs "<" s = false -> strip_tags s = s.
Proof.
  induction s as [|c s IH]; [reflexivity|].
  cbn [occurs]. intros H. apply orb_false_elim in H. destruct H as [H1 H2].
  rewrite strip_tags_cons, (Ascii.eqb_sym c "<"), H1, IH; auto.
Qed.

Lemma after_tag_closed (t rest : string) :
  occurs ">" t = false -> occurs "010" t = false ->
  after_tag (t ++ String ">" rest) = Some rest.
Proof.
  induction t as [|c t IH]; cbn [occurs append after_tag]; [reflexivity|].
  intros H1 H2.
  apply orb_false_elim in H1. destruct H1 as [A1 B1].
  apply orb_false_elim in H2. destruct H2 as [A2 B2].
  rewrite (Ascii.eqb_sym c ">"), A1, (Ascii.eqb_sym c "010"), A2. auto.
Qed.

Lemma strip_tags_shorter (n : nat) :
  forall s, String.length s <= n ->
            String.length (strip_tags s) <= String.length s.
Proof.
  induction n as [|n IH]; intros s H.
  - destruct s; [cbn; lia|cbn in H; lia].
  - destruct s as [|c s]; [cbn; lia|].
    cbn [String.length] in H. rewrite strip_tags_cons.
    destruct (Ascii.eqb c "<").
    + destruct (after_tag s) as [rest|] eqn:T.
      * apply after_tag_shorter in T.
        specialize (IH rest ltac:(lia)). cbn [String.length]. lia.
      * specialize (IH s ltac:(lia)). cbn [String.length]. lia.
    + specialize (IH s ltac:(lia)). cbn [String.length]. lia.
Qed.

(** X21: [get_plaintext] decodes the text of the vote without its tags.  A
    text without an opening angle bracket is decoded as it is; a tag that
    closes on its line is removed with what it holds and what stands
    before it stays; the text never grows by the removal. *)
Theorem get_plaintext_tags (env : Environment) (vote : Vote.t) (text : string) :
  Vote.text vote = Some text ->
  Vote.get_plaintext env vote = Ok (unescape env (strip_tags text))
  /\ (occurs "<" text = false ->
      Vote.get_plaintext env vote = Ok (unescape env text))
  /\ (forall before tag after,
        text = before ++ String "<" (tag ++ String ">" after) ->
        occurs "<" before = false ->
        occurs ">" tag = false -> occurs "010" tag = false ->
        strip_tags text = before ++ strip_tags after)
  /\ String.length (strip_tags text) <= String.length text.
Proof.
  intros T. unfold Vote.get_plaintext. rewrite T.
  split; [reflexivity|]. split; [|split].
  - intros P. now rewrite strip_tags_plain.
  - intros before tag after -> B G L. clear T.
    induction before as [|c before IH]; cbn [append].
    + rewrite strip_tags_cons. cbn [Ascii.eqb Bool.eqb].
      now rewrite after_tag_closed.
    + cbn [occurs] in B. apply orb_false_elim in B. destruct B as [B1 B2].
      rewrite strip_tags_cons, (Ascii.eqb_sym c "<"), B1. f_equal.
      apply IH. exact B2.
  - now apply (strip_tags_shorter (n := String.length text)).
Qed.

Lemma get_plaintext_tags_witness :
  Vote.get_plaintext Fixture.env
    {| Vote.section_label := Some "Support";
       Vote.text := Some "#Support <small>weak</small> [[User:Alice]]";
       Vote.user := UNone; Vote.datetime := None; Vote.local_gap := None;
       Vote.global_gap := None |}
  = Ok (unescape Fixture.env
          (strip_tags "#Support <small>weak</small> [[User:Alice]]")).
Proof.
  exact (proj1 (@get_plaintext_tags Fixture.env
                  {| Vote.section_label := Some "Support";
                     Vote.text :=
                       Some "#Support <small>weak</small> [[User:Alice]]";
                     Vote.user := UNone; Vote.datetime := None;
                     Vote.local_gap := None; Vote.global_gap := None |}
                  "#Support <small>weak</small> [[User:Alice]]" eq_refl)).
Defined.

Example strip_tags_of_small :
  strip_tags "#Support <small>weak</small> [[User:Alice]]"
  = "#Support weak [[User:Alice]]".
Proof. reflexivity. Qed.

(** ** Rows *)

Section RowProperties.
Variable env : Environment.
Variable isoformat : DateTime -> string.

(** The row of a vote that [from_line] returned. *)
Lemma row_of_from_line (api : Api.t) (line label : string) (vote : Vote.t) :
  Vote.from_line env api line label = Ok vote ->
  exists c0 c3 c4 c5 c6,
    CsvVoteWriter.row env isoformat vote
    = Ok [c0; Text label; date_cell isoformat (Vote.datetime vote); c3; c4; c5; c6;
          Text (unescape env (strip_tags line))]
    /\ (Vote.user vote = UNone ->
        c0 = Text "-" /\ c3 = Text "-" /\ c4 = Text "-" /\ c5 = Text "-"
        /\ c6 = Text "-")
    /\ (forall u,
          Vote.user vote = UObject u ->
          c0 = Text (User.username u)
          /\ (exists count, User.editcount u = Some count /\ c3 = Number count)
          /\ (exists first,
                User.first_edit u = Some first /\ c4 = Text (isoformat first))
          /\ (User.global_user u = GFalse ->
              c5 = Text "-" /\ c6 = Text "commonswiki")).
Proof.
  intros H. apply from_line_returns in H.
  destruct H as (Hl & Ht & _ & _ & _ & Hu).
  unfold CsvVoteWriter.row, CsvVoteWriter.of_user, Vote.get_plaintext, rbind.
  rewrite Hl, Ht. cbn [CsvVoteWriter.optional_text].
  destruct (Vote.user vote) as [|u|u]; [| |destruct Hu].
  - do 5 eexists. split; [reflexivity|]. split; [auto 10|discriminate].
  - destruct Hu as (_ & _ & _ & (gs & count & first & _ & Hc & Hf) & G).
    rewrite Hc, Hf.
    unfold User.get_global_editcount, User.get_home_wiki.
    destruct G as [G|[g G]]; rewrite G.
    + do 5 eexists. split; [reflexivity|]. split; [discriminate|].
      intros u' E. injection E as <-.
      split; [reflexivity|]. split; [eauto|]. split; [eauto|].
      intros _. split; reflexivity.
    + do 5 eexists. split; [reflexivity|]. split; [discriminate|].
      intros u' E. injection E as <-.
      split; [reflexivity|]. split; [eauto|]. split; [eauto|].
      intros X. rewrite G in X. discriminate.
Qed.

End RowProperties.

(** X22: for a vote that [from_line] returned, [write] can build its row:
    eight cells, as many as the header has, with the label second and the
    plain text of the line last.  A vote without an author has the
    placeholder in the five cells of the author; a vote with one has the
    name, the edit count and the first edit of the author, and, when the
    account is not federated, the placeholder for the global edit count and
    the anchor wiki as home wiki. *)
Theorem row_of_extracted_vote (env : Environment)
        (isoformat : DateTime -> string) (api : Api.t) (line label : string)
        (vote : Vote.t) :
  Vote.from_line env api line label = Ok vote ->
  exists cells,
    CsvVoteWriter.row env isoformat vote = Ok cells
    /\ length cells = length CsvVoteWriter.header
    /\ nth_error cells 1 = Some (Text label)
    /\ nth_error cells 7 = Some (Text (unescape env (strip_tags line)))
    /\ (Vote.user vote = UNone ->
        cells = [Text "-"; Text label; date_cell isoformat (Vote.datetime vote);
                 Text "-"; Text "-"; Text "-"; Text "-";
                 Text (unescape env (strip_tags line))])
    /\ (forall u,
          Vote.user vote = UObject u ->
          nth_error cells 0 = Some (Text (User.username u))
          /\ (exists count,
                User.editcount u = Some count
                /\ nth_error cells 3 = Some (Number count))
          /\ (exists first,
                User.first_edit u = Some first
                /\ nth_error cells 4 = Some (Text (isoformat first)))
          /\ (User.global_user u = GFalse ->
              nth_error cells 5 = Some (Text "-")
              /\ nth_error cells 6 = Some (Text "commonswiki"))).
Proof.
  intros H.
  destruct (row_of_from_line env isoformat _ _ _ H)
    as (c0 & c3 & c4 & c5 & c6 & R & N & U).
  eexists. split; [exact R|]. split; [reflexivity|].
  split; [reflexivity|]. split; [reflexivity|]. split.
  - intros E. destruct (N E) as (-> & -> & -> & -> & ->). reflexivity.
  - intros u E. destruct (U u E) as (-> & C & F & G). cbn [nth_error].
    split; [reflexivity|]. split; [|split].
    + destruct C as (count & C & ->). eauto.
    + destruct F as (first & F & ->). eauto.
    + intros X. destruct (G X) as [-> ->]. auto.
Qed.

Lemma row_of_extracted_vote_witness :
  exists cells,
    CsvVoteWriter.row Fixture.env (fun _ => "2010-01-01 00:00:00")
      {| Vote.section_label := Some "Oppose";
         Vote.text := Some "#Oppose [[User:Ghost]]"; Vote.user := UNone;
         Vote.datetime := None; Vote.local_gap := None;
         Vote.global_gap := None |}
    = Ok cells
    /\ length cells = length CsvVoteWriter.header.
Proof.
  destruct (@row_of_extracted_vote Fixture.env (fun _ => "2010-01-01 00:00:00")
              Fixture.api "#Oppose [[User:Ghost]]" "Oppose" _ eq_refl)
    as (cells & R & L & _).
  exists cells. split; [exact R|exact L].
Defined.

(** The author of a vote of [from_line] becomes a dictionary in
    [to_dict]. *)
Lemma to_dict_of_author (env : Environment) (api : Api.t)
      (line label : string) (vote : Vote.t) (u : User.t) :
  Vote.from_line env api line label = Ok vote ->
  Vote.user vote = UObject u ->
  exists u', Vote.to_dict vote = (Vote.set_user (UDict u') vote, Ok tt).
Proof.
  intros H Hu.
  destruct (from_line_author _ _ _ _ H Hu) as [G|(g & w & r & G & W & R)];
    unfold Vote.to_dict, User.to_dict; unfold_se; rewrite Hu, G.
  - eexists. reflexivity.
  - rewrite (global_to_dict_deletes g W R). eexists. reflexivity.
Qed.

(** X23: once [to_dict] or [str] has run on a vote that has an author,
    [write] cannot build its row any more: reading the name of the author
    from the dictionary that took its place raises [AttributeError]. *)
Theorem row_after_to_dict (env : Environment) (isoformat : DateTime -> string)
        (api : Api.t) (line label : string) (vote : Vote.t) (u : User.t) :
  Vote.from_line env api line label = Ok vote ->
  Vote.user vote = UObject u ->
  CsvVoteWriter.row env isoformat (fst (Vote.to_dict vote))
  = Raise AttributeError
  /\ CsvVoteWriter.row env isoformat (fst (Vote.str vote))
     = Raise AttributeError.
Proof.
  intros H Hu. unfold Vote.str.
  destruct (to_dict_of_author _ _ _ _ H Hu) as [u' T]. rewrite T.
  split; reflexivity.
Qed.

Lemma row_after_to_dict_witness :
  CsvVoteWriter.row Fixture.env (fun _ => "2010-01-01 00:00:00")
    (fst (Vote.to_dict
            {| Vote.section_label := Some "Oppose";
               Vote.text := Some "#Oppose [[User_talk:Carol|talk]]";
               Vote.user :=
                 UObject {| User.api := Fixture.api; User.username := "Carol";
                            User.global_user := GFalse;
                            User.editcount := Some 3%Z;
                            User.groups := Some [];
                            User.first_edit := Some 1330837567%Z |};
               Vote.datetime := None; Vote.local_gap := None;
               Vote.global_gap := None |}))
  = Raise AttributeError.
Proof.
  exact (proj1 (@row_after_to_dict Fixture.env
                  (fun _ => "2010-01-01 00:00:00") Fixture.api
                  "#Oppose [[User_talk:Carol|talk]]" "Oppose" _ _
                  eq_refl eq_refl)).
Defined.

(** ** The script *)

Section ScriptProperties.
Variable env : Environment.
Variable isoformat : DateTime -> string.
Variable encode : string -> result string.
Variable str_of_int : Z -> string.
Variable file_open : result unit.
Variable file_writerow : list string -> result unit.
Variable file_close : result unit.
Variable print_progress : Z -> string -> result unit.





End ScriptProperties.


(** The script on the small wiki: three rows after the header when the
    names are printed, two when the second name is refused. *)
Example fixture_script_runs :
  Fixture.script []
  = ([CsvVoteWriter.header;
      ["Alice"; "Support"; "-"; "42"; "1262304000"; "1000"; "enwiki";
       "#Support --[[User:Alice|Alice]] 01:02, 3 April 2024 (UTC)"];
      ["Carol"; "Oppose"; "-"; "3"; "1330837567"; "-"; "commonswiki";
       "#Oppose [[User_talk:Carol|talk]]"];
      ["-"; "Oppose"; "-"; "-"; "-"; "-"; "-"; "#Oppose [[User:Ghost]]"]],
     Exhausted)
  /\ Fixture.script ["Carol"]
     = ([CsvVoteWriter.header;
         ["Alice"; "Support"; "-"; "42"; "1262304000"; "1000"; "enwiki";
          "#Support --[[User:Alice|Alice]] 01:02, 3 April 2024 (UTC)"];
         ["Carol"; "Oppose"; "-"; "3"; "1330837567"; "-"; "commonswiki";
          "#Oppose [[User_talk:Carol|talk]]"]],
        Raised ValueError).
Proof. split; vm_compute; reflexivity. Qed.

(** ** Dictionaries of users *)

(** X25: [GlobalUser.to_dict] deletes the two lists of member wikis from
    the profile itself and touches nothing else; called again on the same
    profile it raises [KeyError].  It raises only when one of the two is
    already gone.  [User.to_dict] leaves a user that is not federated as it
    is. *)
Theorem to_dict_again (g : GlobalUser.t) (u : User.t) :
  match GlobalUser.to_dict g with
  | (g', Ok _) =>
      GlobalUser.wikis g' = Deleted /\ GlobalUser.wiki_urls g' = Deleted
      /\ GlobalUser.username g' = GlobalUser.username g
      /\ GlobalUser.home_wiki g' = GlobalUser.home_wiki g
      /\ GlobalUser.editcount g' = GlobalUser.editcount g
      /\ GlobalUser.groups g' = GlobalUser.groups g
      /\ GlobalUser.first_edit g' = GlobalUser.first_edit g
      /\ GlobalUser.to_dict g' = (g', Raise KeyError)
  | (_, Raise e) =>
      e = KeyError
      /\ (GlobalUser.wikis g = Deleted \/ GlobalUser.wiki_urls g = Deleted)
  end
  /\ (User.global_user u = GNone \/ User.global_user u = GFalse ->
      User.to_dict u = (u, Ok tt)).
Proof.
  split.
  - unfold GlobalUser.to_dict. unfold_se.
    destruct g as [n h w r c gs f]. cbn.
    destruct w as [|w]; cbn; [auto|].
    destruct r as [|r]; cbn; auto 10.
  - unfold User.to_dict. unfold_se. intros [E|E]; now rewrite E.
Qed.

(** ** The text of a section *)

Lemma first_revision_skips (env : Environment) (empty pages : list PageInfo) :
  Forall (fun p => pg_revisions p = Some []) empty ->
  Api.first_revision (empty ++ pages) = Api.first_revision pages.
Proof.
  induction 1 as [|p empty E _ IH]; [reflexivity|].
  cbn [app Api.first_revision]. rewrite E. cbn [getitem rbind]. exact IH.
Qed.

(** X26: the text of a section is the content of the first revision of the
    first page of the response that lists a revision, and its candidate
    lines are what [get_vote_lines] gives.  When no page lists a revision
    there is no text and [get_vote_lines] raises [AttributeError]; when a
    page without the key ['revisions'], as the entry of a page that does
    not exist, comes before any revision, it raises [KeyError]. *)
Theorem get_vote_lines_of_response (env : Environment) (self : VotePage.t)
        (section : Z) (q : Query) (empty : list PageInfo) :
  section <> 0%Z ->
  VotePage.revision self = None ->
  truthy_str (VotePage.page self) = true ->
  request env (Api.endpoint (VotePage.api self))
    (RevisionQuery None (VotePage.page self) section)
  = Ok {| query := Some q |} ->
  Forall (fun p => pg_revisions p = Some []) empty ->
  (forall text revisions pages,
     q_pages q
     = Some (empty
             ++ {| pg_revisions :=
                     Some ({| rv_content := Some text |} :: revisions) |}
                :: pages)%list ->
     VotePage.get_vote_lines env self section
     = Ok (filter_vote_lines (splitlines env text)))
  /\ (q_pages q = Some empty ->
      VotePage.get_vote_lines env self section = Raise AttributeError)
  /\ (forall pages,
        q_pages q = Some (empty ++ {| pg_revisions := None |} :: pages)%list ->
        VotePage.get_vote_lines env self section = Raise KeyError).
Proof.
  intros N R P Q E.
  assert (T : truthy_int (Some section) = true).
  { cbn. now destruct (Z.eqb_spec section 0). }
  assert (G : forall pages,
            q_pages q = Some pages ->
            VotePage.get_vote_lines env self section
            = match Api.first_revision pages with
              | Ok (Some text) => Ok (filter_vote_lines (splitlines env text))
              | Ok None => Raise AttributeError
              | Raise e => Raise e
              end).
  { intros pages H.
    unfold VotePage.get_vote_lines, Api.get_section_text, Api.call, rbind.
    rewrite T, P, R. cbn [truthy_int negb andb orb]. rewrite Q.
    cbn [query getitem]. rewrite H. cbn [getitem].
    destruct (Api.first_revision pages) as [[text|]|e]; reflexivity. }
  split; [|split].
  - intros text revisions pages H.
    rewrite (G _ H), (first_revision_skips env _ E). reflexivity.
  - intros H. rewrite (G _ H), <- (app_nil_r empty),
      (first_revision_skips env _ E). reflexivity.
  - intros pages H.
    rewrite (G _ H), (first_revision_skips env _ E). reflexivity.
Qed.

Lemma get_vote_lines_of_response_witness :
  (forall text revisions pages,
     q_pages (Fixture.section_text Fixture.oppose_text)
     = Some ([]
             ++ {| pg_revisions :=
                     Some ({| rv_content := Some text |} :: revisions) |}
                :: pages)%list ->
     VotePage.get_vote_lines Fixture.env Fixture.vote_page 2
     = Ok (filter_vote_lines (splitlines Fixture.env text)))
  /\ (q_pages (Fixture.section_text Fixture.oppose_text) = Some [] ->
      VotePage.get_vote_lines Fixture.env Fixture.vote_page 2
      = Raise AttributeError)
  /\ (forall pages,
        q_pages (Fixture.section_text Fixture.oppose_text)
        = Some ([] ++ {| pg_revisions := None |} :: pages)%list ->
        VotePage.get_vote_lines Fixture.env Fixture.vote_page 2
        = Raise KeyError).
Proof.
  apply (@get_vote_lines_of_response Fixture.env Fixture.vote_page 2%Z
           (Fixture.section_text Fixture.oppose_text) []).
  - discriminate.
  - reflexivity.
  - reflexivity.
  - reflexivity.
  - constructor.
Defined.
